(** * A blog application: users, posts, comments, sessions and the admin guard

    Shallow embedding of [main.py]: the three tables of the relational
    store, the request context every view function runs in (database,
    signed session cookie, flashed messages), the [admin_only] decorator and
    the ten view functions.  A view function is a computation in a small
    state-and-exception monad: state for the database and the session,
    exceptions for [abort], [get_or_404] and the errors that the handlers do
    not catch. *)

From Stdlib Require Import ZArith List String Bool Lia DecimalString FinFun.
Import ListNotations.

Open Scope string_scope.
Open Scope list_scope.
Open Scope Z_scope.

(** ** Tables

    Every column is declared with a non-optional [Mapped[...]] annotation, so
    every column is NOT NULL; the primary keys are SQLite integer row
    identifiers. *)

Module UserAccts.
Record t : Type := mk
  { id : Z;
    email : string;      (* unique=True *)
    password : string;
    name : string }.
End UserAccts.

Module BlogPost.
Record t : Type := mk
  { id : Z;
    author_id : Z;       (* ForeignKey("user_accts.id") *)
    title : string;      (* unique=True *)
    subtitle : string;
    date : string;
    body : string;
    img_url : string }.
End BlogPost.

Module Comment.
Record t : Type := mk
  { id : Z;
    author_id : Z;       (* ForeignKey("user_accts.id") *)
    post_id : Z;         (* ForeignKey("blog_posts.id") *)
    text : string }.
End Comment.

Record Database : Type := mkDatabase
  { user_accts : list UserAccts.t;
    blog_posts : list BlogPost.t;
    comments : list Comment.t }.

(** [db.create_all()] on a fresh file. *)
Definition create_all : Database :=
  {| user_accts := []; blog_posts := []; comments := [] |}.

(** ** Request context *)

(** The part of a request that the view functions read or write besides the
    form: the database, the user identifier stored in the session cookie by
    Flask-Login ([None] for a visitor who is not logged in) and the
    messages handed to [flash]. *)
Record Ctx : Type := mkCtx
  { db : Database;
    session_user_id : option Z;
    flashes : list string }.

Definition with_db (c : Ctx) (d : Database) : Ctx :=
  {| db := d; session_user_id := session_user_id c; flashes := flashes c |}.

Definition with_session (c : Ctx) (s : option Z) : Ctx :=
  {| db := db c; session_user_id := s; flashes := flashes c |}.

Definition with_flash (c : Ctx) (message : string) : Ctx :=
  {| db := db c; session_user_id := session_user_id c;
     flashes := flashes c ++ [message] |}.

(** ** Exceptions and the handler monad *)

Inductive Exception : Type :=
| HTTPException (code : Z)            (* abort(code), get_or_404 *)
| AttributeError (message : string)
| IntegrityError (message : string).  (* sqlalchemy.exc.IntegrityError *)

Inductive Result (A : Type) : Type :=
| Returns (a : A)
| Raises (e : Exception).
Arguments Returns {A} a.
Arguments Raises {A} e.

Definition M (A : Type) : Type := Ctx -> Result A * Ctx.

Definition ret {A : Type} (a : A) : M A := fun c => (Returns a, c).

Definition raise {A : Type} (e : Exception) : M A := fun c => (Raises e, c).

Definition bind {A B : Type} (m : M A) (k : A -> M B) : M B :=
  fun c =>
    match m c with
    | (Returns a, c') => k a c'
    | (Raises e, c') => (Raises e, c')
    end.

Declare Scope view_scope.
Delimit Scope view_scope with view.
Notation "x <- m ;; k" := (bind m (fun x => k))
  (at level 61, m at next level, right associativity) : view_scope.
Notation "m ;; k" := (bind m (fun _ => k))
  (at level 61, right associativity) : view_scope.
Open Scope view_scope.

Definition abort {A : Type} (code : Z) : M A := raise (HTTPException code).

Definition flash (message : string) : M unit :=
  fun c => (Returns tt, with_flash c message).

(** ** Responses *)

Inductive Endpoint : Type :=
| ep_login
| ep_get_all_posts
| ep_show_post (post_id : Z).

Inductive Response : Type :=
| redirect (url_for : Endpoint)
| render_template (template : string) (posts : list BlogPost.t).

(** Status line that the client sees: Flask turns an [HTTPException] into
    the response of its code and any other exception that leaves the view
    function into 500 Internal Server Error. *)
Definition status (r : Result Response) : Z :=
  match r with
  | Returns (redirect _) => 302
  | Returns (render_template _ _) => 200
  | Raises (HTTPException code) => code
  | Raises (AttributeError _) => 500
  | Raises (IntegrityError _) => 500
  end.

Definition Forbidden : Result Response := Raises (HTTPException 403).

(** ** Forms

    The field names are the ones the view functions read.  The validators
    live in [forms.py]; the verdict of [form.validate()] on the submitted
    data travels with the request. *)

Module RegisterForm.
Record t : Type := mk { email : string; password : string; name : string }.
End RegisterForm.

Module LoginForm.
Record t : Type := mk { email : string; password : string }.
End LoginForm.

Module CommentForm.
Record t : Type := mk { comment_text : string }.
End CommentForm.

Module CreatePostForm.
Record t : Type := mk
  { title : string; subtitle : string; img_url : string; body : string }.
End CreatePostForm.

Inductive Method : Type := GET | POST.

Record Request (Form : Type) : Type := mkRequest
  { method : Method;
    form : Form;
    validate : bool }.
Arguments mkRequest {Form} method form validate.
Arguments method {Form} r.
Arguments form {Form} r.
Arguments validate {Form} r.

Definition is_submitted {Form : Type} (r : Request Form) : bool :=
  match method r with POST => true | GET => false end.

Definition validate_on_submit {Form : Type} (r : Request Form) : bool :=
  is_submitted r && validate r.

(** ** Dates: [date.today().strftime("%B %d, %Y")] *)

Inductive Month : Type :=
| January | February | March | April | May | June
| July | August | September | October | November | December.

Record date : Type := mkdate { year : N; month : Month; day : N }.

Definition month_name (m : Month) : string :=
  match m with
  | January => "January" | February => "February" | March => "March"
  | April => "April" | May => "May" | June => "June"
  | July => "July" | August => "August" | September => "September"
  | October => "October" | November => "November" | December => "December"
  end.

Definition decimal (n : N) : string := NilZero.string_of_uint (N.to_uint n).

(** [%d]: day of the month, zero-padded to two digits. *)
Definition two_digits (n : N) : string :=
  if (n <? 10)%N then String.append "0" (decimal n) else decimal n.

Definition strftime_B_d_Y (d : date) : string :=
  String.append (month_name (month d))
    (String.append " "
       (String.append (two_digits (day d))
          (String.append ", " (decimal (year d))))).

(** What a request takes from outside the application: the clock and the
    salt that [generate_password_hash] draws. *)
Record Env : Type := mkEnv { today : date; salt : string }.

(** ** The ORM session *)

(** SQLite gives a new row one more than the largest row identifier in
    use, and 1 in an empty table.  (At the largest 64-bit identifier it
    picks an unused one at random; the tables here stay far below.) *)
Definition next_id (ids : list Z) : Z :=
  match ids with
  | [] => 1
  | i :: rest => 1 + fold_right Z.max i rest
  end.

(** The integers that SQLite stores and that [sqlite3] binds as query
    parameters: 64-bit signed. *)
Definition sqlite_integer (i : Z) : Prop := - 2 ^ 63 <= i < 2 ^ 63.

(** [result.scalar()]: the first row, or [None]. *)
Definition scalar {Row : Type} (rows : list Row) : option Row := hd_error rows.

Definition select_UserAccts_where_email (email : string) : M (option UserAccts.t) :=
  fun c =>
    (Returns (scalar (filter (fun u => UserAccts.email u =? email)%string
                        (user_accts (db c)))), c).

Definition select_BlogPost : M (list BlogPost.t) :=
  fun c => (Returns (blog_posts (db c)), c).

(** [db.get_or_404(Model, ident)] for an identifier that [sqlite3] can
    bind ([sqlite_integer]; the identifiers of stored rows are). *)
Definition get_or_404 {Row : Type} (table : Database -> list Row)
    (pk : Row -> Z) (ident : Z) : M Row :=
  fun c =>
    match find (fun r => pk r =? ident) (table (db c)) with
    | Some r => (Returns r, c)
    | None => (Raises (HTTPException 404), c)
    end.

(** [db.session.add(UserAccts(...)); db.session.commit()].  The INSERT
    fails on the unique index of [email]; a failed commit leaves the
    tables as they were. *)
Definition add_UserAccts (name email password : string) : M UserAccts.t :=
  fun c =>
    let d := db c in
    if existsb (fun u => UserAccts.email u =? email)%string (user_accts d)
    then (Raises (IntegrityError "UNIQUE constraint failed: user_accts.email"), c)
    else
      let u := UserAccts.mk (next_id (map UserAccts.id (user_accts d)))
                 email password name in
      (Returns u,
       with_db c {| user_accts := user_accts d ++ [u];
                    blog_posts := blog_posts d;
                    comments := comments d |}).

(** [db.session.add(BlogPost(...)); db.session.commit()], with the unique
    index of [title]. *)
Definition add_BlogPost (title subtitle body img_url : string) (author : Z)
    (date : string) : M BlogPost.t :=
  fun c =>
    let d := db c in
    if existsb (fun p => BlogPost.title p =? title)%string (blog_posts d)
    then (Raises (IntegrityError "UNIQUE constraint failed: blog_posts.title"), c)
    else
      let p := BlogPost.mk (next_id (map BlogPost.id (blog_posts d)))
                 author title subtitle date body img_url in
      (Returns p,
       with_db c {| user_accts := user_accts d;
                    blog_posts := blog_posts d ++ [p];
                    comments := comments d |}).

(** [db.session.add(Comment(...)); db.session.commit()]. *)
Definition add_Comment (text : string) (comment_author parent_post : Z)
    : M Comment.t :=
  fun c =>
    let d := db c in
    let k := Comment.mk (next_id (map Comment.id (comments d)))
               comment_author parent_post text in
    (Returns k,
     with_db c {| user_accts := user_accts d;
                  blog_posts := blog_posts d;
                  comments := comments d ++ [k] |}).

(** The row with the primary key of [p] takes the attributes of [p]. *)
Definition assign (p q : BlogPost.t) : BlogPost.t :=
  if BlogPost.id q =? BlogPost.id p then p else q.

(** [db.session.commit()] after the attributes of a loaded post were
    assigned: an UPDATE of the row with that primary key, which fails when
    another row already carries the new title. *)
Definition update_BlogPost (p : BlogPost.t) : M unit :=
  fun c =>
    let d := db c in
    if existsb (fun q => negb (BlogPost.id q =? BlogPost.id p)
                         && (BlogPost.title q =? BlogPost.title p)%string)
         (blog_posts d)
    then (Raises (IntegrityError "UNIQUE constraint failed: blog_posts.title"), c)
    else
      (Returns tt,
       with_db c {| user_accts := user_accts d;
                    blog_posts := map (assign p) (blog_posts d);
                    comments := comments d |}).

(** [db.session.delete(post); db.session.commit()].  The relationship
    [BlogPost.comments] has no delete cascade, so the unit of work first
    detaches the comments of the post by writing NULL into their
    [post_id]; that column is NOT NULL, so with at least one comment the
    flush fails and nothing is written.  Without comments the row is
    deleted. *)
Definition delete_BlogPost (p : BlogPost.t) : M unit :=
  fun c =>
    let d := db c in
    if existsb (fun k => Comment.post_id k =? BlogPost.id p) (comments d)
    then (Raises (IntegrityError "NOT NULL constraint failed: comments.post_id"), c)
    else
      (Returns tt,
       with_db c {| user_accts := user_accts d;
                    blog_posts :=
                      filter (fun q => negb (BlogPost.id q =? BlogPost.id p))
                        (blog_posts d);
                    comments := comments d |}).

(** ** Flask-Login *)

Definition load_user (user_id : Z) : M UserAccts.t :=
  get_or_404 user_accts UserAccts.id user_id.

(** [current_user]: the anonymous user object when the session holds no
    user identifier, the user that [load_user] returns otherwise. *)
Inductive User : Type :=
| AnonymousUserMixin
| Account (u : UserAccts.t).

Definition current_user : M User :=
  fun c =>
    match session_user_id c with
    | None => (Returns AnonymousUserMixin, c)
    | Some user_id => bind (load_user user_id) (fun u => ret (Account u)) c
    end.

Definition is_authenticated (u : User) : bool :=
  match u with
  | AnonymousUserMixin => false
  | Account _ => true
  end.

(** [current_user.id]: the anonymous user object has no attribute [id]. *)
Definition current_user_id : M Z :=
  u <- current_user ;;
  match u with
  | AnonymousUserMixin =>
      raise (AttributeError "'AnonymousUserMixin' object has no attribute 'id'")
  | Account a => ret (UserAccts.id a)
  end.

Definition login_user (u : UserAccts.t) : M unit :=
  fun c => (Returns tt, with_session c (Some (UserAccts.id u))).

(** [logout_user()] loads the current user first, as any read of
    [current_user] does, and then removes the user identifier from the
    session. *)
Definition logout_user : M unit :=
  current_user ;;
  fun c => (Returns tt, with_session c None).

(** ** The decorator *)

Definition admin_only {Args : Type} (function : Args -> M Response)
    : Args -> M Response :=
  fun args =>
    id <- current_user_id ;;
    if negb (id =? 1) then abort 403
    else function args.

(** ** View functions that do not hash passwords *)

Definition logout : M Response :=
  logout_user ;;
  ret (redirect ep_get_all_posts).

Definition get_all_posts : M Response :=
  posts <- select_BlogPost ;;
  ret (render_template "index.html" posts).

Definition show_post (post_id : Z) (com_form : Request CommentForm.t)
    : M Response :=
  requested_post <- get_or_404 blog_posts BlogPost.id post_id ;;
  if validate_on_submit com_form then
    user <- current_user ;;
    if negb (is_authenticated user) then
      flash "You need to Login or register to comment" ;;
      ret (redirect ep_login)
    else
      comment_author <- current_user_id ;;
      add_Comment (CommentForm.comment_text (form com_form))
        comment_author (BlogPost.id requested_post) ;;
      ret (render_template "post.html" [requested_post])
  else ret (render_template "post.html" [requested_post]).

Definition add_new_post (env : Env) (form_ : Request CreatePostForm.t)
    : M Response :=
  admin_only
    (fun _ : unit =>
       if validate_on_submit form_ then
         author <- current_user_id ;;
         add_BlogPost
           (CreatePostForm.title (form form_))
           (CreatePostForm.subtitle (form form_))
           (CreatePostForm.body (form form_))
           (CreatePostForm.img_url (form form_))
           author
           (strftime_B_d_Y (today env)) ;;
         ret (redirect ep_get_all_posts)
       else ret (render_template "make-post.html" []))
    tt.

Definition edit_post (post_id : Z) (edit_form : Request CreatePostForm.t)
    : M Response :=
  admin_only
    (fun post_id =>
       post <- get_or_404 blog_posts BlogPost.id post_id ;;
       if validate_on_submit edit_form then
         author <- current_user_id ;;
         update_BlogPost
           {| BlogPost.id := BlogPost.id post;
              BlogPost.author_id := author;
              BlogPost.title := CreatePostForm.title (form edit_form);
              BlogPost.subtitle := CreatePostForm.subtitle (form edit_form);
              BlogPost.date := BlogPost.date post;
              BlogPost.body := CreatePostForm.body (form edit_form);
              BlogPost.img_url := CreatePostForm.img_url (form edit_form) |} ;;
         ret (redirect (ep_show_post (BlogPost.id post)))
       else ret (render_template "make-post.html" []))
    post_id.

Definition delete_post (post_id : Z) : M Response :=
  post_to_delete <- get_or_404 blog_posts BlogPost.id post_id ;;
  delete_BlogPost post_to_delete ;;
  ret (redirect ep_get_all_posts).

Definition about : M Response := ret (render_template "about.html" []).

Definition contact : M Response := ret (render_template "contact.html" []).

(** ** Password hashing (werkzeug.security) *)

Class Werkzeug : Type :=
  { (* password, drawn salt *)
    generate_password_hash : string -> string -> string;
    (* pwhash, password *)
    check_password_hash : string -> string -> bool }.

Section Application.

Context {werkzeug : Werkzeug}.

Definition register (env : Env) (r_form : Request RegisterForm.t)
    : M Response :=
  if validate_on_submit r_form then
    let email := RegisterForm.email (form r_form) in
    user <- select_UserAccts_where_email email ;;
    match user with
    | Some _ =>
        flash "You've already signed up with that email, log in instead!" ;;
        ret (redirect ep_login)
    | None =>
        let hash_pass :=
          generate_password_hash (RegisterForm.password (form r_form))
            (salt env) in
        new_user <- add_UserAccts (RegisterForm.name (form r_form))
                      (RegisterForm.email (form r_form)) hash_pass ;;
        login_user new_user ;;
        ret (redirect ep_get_all_posts)
    end
  else ret (render_template "register.html" []).

Definition login (l_form : Request LoginForm.t) : M Response :=
  if validate_on_submit l_form then
    let u_email := LoginForm.email (form l_form) in
    let u_password := LoginForm.password (form l_form) in
    u_acct <- select_UserAccts_where_email u_email ;;
    match u_acct with
    | None =>
        flash "That email does not exist, please try again." ;;
        ret (redirect ep_login)
    | Some u_acct =>
        if negb (check_password_hash (UserAccts.password u_acct) u_password)
        then
          flash "Password incorrect, please try again." ;;
          ret (redirect ep_login)
        else
          login_user u_acct ;;
          ret (redirect ep_get_all_posts)
    end
  else ret (render_template "login.html" []).

(** ** The routes *)

Inductive HttpRequest : Type :=
| Register (env : Env) (r_form : Request RegisterForm.t)   (* /register *)
| Login (l_form : Request LoginForm.t)                     (* /login *)
| Logout                                                   (* /logout *)
| GetAllPosts                                              (* / *)
| ShowPost (post_id : Z) (com_form : Request CommentForm.t)
| NewPost (env : Env) (form_ : Request CreatePostForm.t)   (* /new-post *)
| EditPost (post_id : Z) (edit_form : Request CreatePostForm.t)
| DeletePost (post_id : Z)                                 (* /delete/<id> *)
| About
| Contact.

Definition app (q : HttpRequest) : M Response :=
  match q with
  | Register env r_form => register env r_form
  | Login l_form => login l_form
  | Logout => logout
  | GetAllPosts => get_all_posts
  | ShowPost post_id com_form => show_post post_id com_form
  | NewPost env form_ => add_new_post env form_
  | EditPost post_id edit_form => edit_post post_id edit_form
  | DeletePost post_id => delete_post post_id
  | About => about
  | Contact => contact
  end.

(** Databases the application can be in: it starts from the empty tables
    and serves one request after the other.  A request comes with the
    session cookie of whichever client sent it, so the session of a step
    is not tied to the one of the step before. *)
Inductive reachable : Database -> Prop :=
| reachable_create_all : reachable create_all
| reachable_request (d : Database) (q : HttpRequest)
    (session : option Z) (fl : list string) :
    reachable d ->
    reachable (db (snd (app q (mkCtx d session fl)))).

End Application.

(** ** Invariants *)

(** A computation keeps a property of the database, whether it returns
    or raises. *)
Definition preserves (Inv : Database -> Prop) {A : Type} (m : M A) : Prop :=
  forall c, Inv (db c) -> Inv (db (snd (m c))).

(** Computations that only read the database. *)
Definition reads_only {A : Type} (m : M A) : Prop :=
  forall c, db (snd (m c)) = db c.

(** The constraints of the schema on users and posts: no two users with
    one email, no two posts with one primary key or one title. *)
Definition constraints (d : Database) : Prop :=
  NoDup (map UserAccts.email (user_accts d)) /\
  NoDup (map BlogPost.id (blog_posts d)) /\
  NoDup (map BlogPost.title (blog_posts d)).

(** ** Sample data *)

(** A stand-in for the password hashing without any cryptography, to run
    [register] and [login] on examples. *)
Definition cleartext : Werkzeug :=
  {| generate_password_hash password salt :=
       String.append salt (String.append "$" password);
     check_password_hash pwhash password :=
       match index 0 "$" pwhash with
       | Some n =>
           (substring (S n) (String.length pwhash - S n) pwhash =? password)%string
       | None => false
       end |}.

Definition angela : UserAccts.t :=
  UserAccts.mk 1 "angela@email.com" "abc$s3cret" "Angela".

Definition bob : UserAccts.t :=
  UserAccts.mk 2 "bob@email.com" "xyz$hunter2" "Bob".

Definition hello : BlogPost.t :=
  BlogPost.mk 1 1 "Hello" "First post" "March 05, 2024" "<p>Hi</p>"
    "https://example.com/a.png".

Definition cactus : BlogPost.t :=
  BlogPost.mk 2 1 "Cactus" "Second post" "March 06, 2024" "<p>Spiky</p>"
    "https://example.com/b.png".

Definition nice : Comment.t := Comment.mk 1 2 1 "<p>Nice!</p>".

Definition one_post : Database :=
  {| user_accts := [angela; bob]; blog_posts := [hello]; comments := [] |}.

Definition two_posts : Database :=
  {| user_accts := [angela; bob]; blog_posts := [hello; cactus];
     comments := [nice] |}.

Definition env0 : Env := mkEnv (mkdate 2024 March 5) "abc".

Definition hello_form : CreatePostForm.t :=
  CreatePostForm.mk "Hello" "Again" "https://example.com/c.png" "<p>Hi!</p>".

Definition hello_request : Request CreatePostForm.t :=
  mkRequest POST hello_form true.

(** Bob and Angela logged in, and a visitor who is not. *)
Definition as_bob (d : Database) : Ctx := mkCtx d (Some 2) [].

Definition as_angela (d : Database) : Ctx := mkCtx d (Some 1) [].

Definition as_visitor (d : Database) : Ctx := mkCtx d None [].

Definition bob_again : Request RegisterForm.t :=
  mkRequest POST (RegisterForm.mk "bob@email.com" "pa55word" "Robert") true.

Definition bob_login : Request LoginForm.t :=
  mkRequest POST (LoginForm.mk "bob@email.com" "hunter2") true.

Definition nice_comment : Request CommentForm.t :=
  mkRequest POST (CommentForm.mk "<p>Nice!</p>") true.

Definition cactus_form : CreatePostForm.t :=
  CreatePostForm.mk "Cactus" "Second post" "https://example.com/b.png"
    "<p>Spiky</p>".

Definition cactus_edit : Request CreatePostForm.t :=
  mkRequest POST
    (CreatePostForm.mk "Cacti" "Many" "https://example.com/d.png" "<p>Ouch</p>")
    true.

Definition angela_signup : Request RegisterForm.t :=
  mkRequest POST (RegisterForm.mk "angela@email.com" "s3cret" "Angela") true.

Definition after_signup : Database :=
  db (snd (app (werkzeug := cleartext) (Register env0 angela_signup)
             (as_visitor create_all))).

Definition after_hello : Database :=
  db (snd (app (werkzeug := cleartext) (NewPost env0 hello_request)
             (as_angela after_signup))).

Definition IntegrityError_title : Exception :=
  IntegrityError "UNIQUE constraint failed: blog_posts.title".

Definition bob_again_rejected : Request RegisterForm.t :=
  mkRequest POST (RegisterForm.mk "bob@email.com" "" "Robert") false.

Definition empty_comment : Request CommentForm.t :=
  mkRequest POST (CommentForm.mk "") false.

Definition ghost_login : Request LoginForm.t :=
  mkRequest POST (LoginForm.mk "ghost@email.com" "boo") true.

Definition ghost_login_rejected : Request LoginForm.t :=
  mkRequest POST (LoginForm.mk "ghost@email.com" "") false.

Definition bob_wrong_password : Request LoginForm.t :=
  mkRequest POST (LoginForm.mk "bob@email.com" "hunter3") true.

Definition angela_login : Request LoginForm.t :=
  mkRequest POST (LoginForm.mk "angela@email.com" "s3cret") true.

Definition view_page : Request CommentForm.t :=
  mkRequest GET (CommentForm.mk "") false.

Definition with_comment : Database :=
  {| user_accts := [angela; bob]; blog_posts := [hello]; comments := [nice] |}.

Definition view_post : Request CreatePostForm.t :=
  mkRequest GET (CreatePostForm.mk "" "" "" "") false.

(** ** The context processor and request methods *)

(** [inject_year]: the value of [year] handed to every template. *)
Definition inject_year (env : Env) : N := year (today env).

(** Requests with the method GET, on the routes that are meant to be
    read: every route but [/logout] and [/delete/<id>]. *)
Definition safe_method (q : HttpRequest) : bool :=
  match q with
  | Register _ r_form => negb (is_submitted r_form)
  | Login l_form => negb (is_submitted l_form)
  | ShowPost _ com_form => negb (is_submitted com_form)
  | NewPost _ form_ => negb (is_submitted form_)
  | EditPost _ edit_form => negb (is_submitted edit_form)
  | GetAllPosts | About | Contact => true
  | Logout | DeletePost _ => false
  end.

(** ** More invariants *)

(** The row identifiers 1, 2, ..., n. *)
Definition ids_upto (n : nat) : list Z := map Z.of_nat (seq 1 n).

Definition user_ids_in_sequence (d : Database) : Prop :=
  map UserAccts.id (user_accts d) = ids_upto (List.length (user_accts d)).

(** The tables [user_accts] and [comments] extend [U] and [C]: the rows of
    [U] and [C] are still there, in place and unmodified. *)
Definition grows (U : list UserAccts.t) (C : list Comment.t) (d : Database)
    : Prop :=
  (exists new_users, user_accts d = U ++ new_users) /\
  (exists new_comments, comments d = C ++ new_comments).

(** The table [blog_posts] is [P]. *)
Definition posts_are (P : list BlogPost.t) (d : Database) : Prop :=
  blog_posts d = P.

(** The table [user_accts] is [U]; the table [comments] is [C]. *)
Definition users_are (U : list UserAccts.t) (d : Database) : Prop :=
  user_accts d = U.

Definition comments_are (C : list Comment.t) (d : Database) : Prop :=
  comments d = C.

(** Computations that leave the whole context as it was: database,
    session and flashed messages. *)
Definition inert {A : Type} (m : M A) : Prop := forall c, snd (m c) = c.

(** Every foreign key refers to a stored row. *)
Definition foreign_keys (d : Database) : Prop :=
  (forall p, In p (blog_posts d) ->
             In (BlogPost.author_id p) (map UserAccts.id (user_accts d))) /\
  (forall k, In k (comments d) ->
             In (Comment.author_id k) (map UserAccts.id (user_accts d)) /\
             In (Comment.post_id k) (map BlogPost.id (blog_posts d))).

(** * Properties *)

Example strftime_B_d_Y_example :
  strftime_B_d_Y (today env0) = "March 05, 2024".
Proof. reflexivity. Qed.

(** ** Reading the current user *)

Lemma find_pk_Some {Row : Type} (pk : Row -> Z) (i : Z) (l : list Row) (r : Row) :
  find (fun x => pk x =? i) l = Some r -> In r l /\ pk r = i.
Proof.
  intros H. apply find_some in H. destruct H as [Hin Hpk].
  split; [assumption | now apply Z.eqb_eq].
Qed.

Lemma current_user_Account (c : Ctx) (u : UserAccts.t) :
  current_user c = (Returns (Account u), c) ->
  exists i, session_user_id c = Some i /\ UserAccts.id u = i /\
            In u (user_accts (db c)).
Proof.
  unfold current_user, load_user, get_or_404, bind, ret.
  destruct (session_user_id c) as [i|]; [|discriminate].
  destruct (find _ _) as [r|] eqn:E; [|discriminate].
  intros H. injection H as ->. apply find_pk_Some in E.
  exists i. tauto.
Qed.

Lemma current_user_id_Account (c : Ctx) (u : UserAccts.t) :
  current_user c = (Returns (Account u), c) ->
  current_user_id c = (Returns (UserAccts.id u), c).
Proof.
  intros H. unfold current_user_id, bind. rewrite H. reflexivity.
Qed.

Lemma current_user_anonymous (c : Ctx) :
  session_user_id c = None ->
  current_user c = (Returns AnonymousUserMixin, c).
Proof. intros H. unfold current_user. now rewrite H. Qed.

(** ** The guard *)

(** The guard lets the wrapped function run for the account with
    identifier 1. *)
Lemma admin_only_admin {Args : Type} (function : Args -> M Response)
    (args : Args) (c : Ctx) (u : UserAccts.t) :
  current_user c = (Returns (Account u), c) ->
  UserAccts.id u = 1 ->
  admin_only function args c = function args c.
Proof.
  intros Hu H1. unfold admin_only, bind.
  rewrite (current_user_id_Account c u Hu), H1. reflexivity.
Qed.

Lemma admin_only_other {Args : Type} (function : Args -> M Response)
    (args : Args) (c : Ctx) (u : UserAccts.t) :
  current_user c = (Returns (Account u), c) ->
  UserAccts.id u <> 1 ->
  admin_only function args c = (Forbidden, c).
Proof.
  intros Hu H1. unfold admin_only, bind.
  rewrite (current_user_id_Account c u Hu).
  destruct (Z.eqb_spec (UserAccts.id u) 1) as [E|E]; [contradiction|].
  reflexivity.
Qed.

(** C1. [delete_post] is not wrapped in [admin_only]: requested by Bob,
    whose identifier is 2, it deletes the post and redirects to the
    listing, where the claim asks for Forbidden and an untouched post. *)
Example delete_post_by_other_account :
  current_user (as_bob one_post) = (Returns (Account bob), as_bob one_post) /\
  delete_post 1 (as_bob one_post)
  = (Returns (redirect ep_get_all_posts),
     as_bob {| user_accts := [angela; bob]; blog_posts := [];
               comments := [] |}) /\
  status (fst (delete_post 1 (as_bob one_post))) <> 403.
Proof. repeat split. discriminate. Qed.

(** C2. For a logged-in account whose identifier is not 1, the guard
    answers Forbidden without running the wrapped function, whatever that
    function is; so [add_new_post] and [edit_post] answer Forbidden and
    leave the database, the session and the flashed messages as they
    were. *)
Theorem admin_only_rejects_other_accounts :
  forall (env : Env) (post_id : Z) (req : Request CreatePostForm.t)
         (c : Ctx) (u : UserAccts.t),
    current_user c = (Returns (Account u), c) ->
    UserAccts.id u <> 1 ->
    (forall (Args : Type) (function : Args -> M Response) (args : Args),
        admin_only function args c = (Forbidden, c)) /\
    add_new_post env req c = (Forbidden, c) /\
    edit_post post_id req c = (Forbidden, c) /\
    status Forbidden = 403.
Proof.
  intros env post_id req c u Hu H1. split; [|split; [|split]].
  - intros Args function args. now apply admin_only_other with u.
  - unfold add_new_post. now apply admin_only_other with u.
  - unfold edit_post. now apply admin_only_other with u.
  - reflexivity.
Qed.

Lemma admin_only_rejects_other_accounts_witness :
  add_new_post env0 hello_request (as_bob one_post)
  = (Forbidden, as_bob one_post) /\
  edit_post 1 hello_request (as_bob one_post) = (Forbidden, as_bob one_post).
Proof.
  destruct (admin_only_rejects_other_accounts env0 1 hello_request
              (as_bob one_post) bob)
    as (_ & Hadd & Hedit & _).
  - reflexivity.
  - discriminate.
  - split; assumption.
Defined.

(** C3. Without a logged-in user, reading [current_user.id] in the guard
    raises AttributeError; the request ends as an uncaught server error
    (500), not as Forbidden. *)
Example admin_only_anonymous :
  forall (env : Env) (post_id : Z) (req : Request CreatePostForm.t)
         (d : Database) (fl : list string),
    let c := mkCtx d None fl in
    let e := AttributeError "'AnonymousUserMixin' object has no attribute 'id'" in
    add_new_post env req c = (Raises e, c) /\
    edit_post post_id req c = (Raises e, c) /\
    status (Raises e) = 500 /\
    Raises e <> Forbidden.
Proof. intros. repeat split. discriminate. Qed.

(** ** Registration and login *)

Lemma scalar_filter_In {Row : Type} (p : Row -> bool) (l : list Row) (r : Row) :
  In r l -> p r = true ->
  exists r', scalar (filter p l) = Some r' /\ In r' l /\ p r' = true.
Proof.
  induction l as [|x l IH]; simpl; [contradiction|].
  intros Hin Hp. destruct (p x) eqn:Ex.
  - exists x. simpl. auto.
  - destruct Hin as [->|Hin]; [congruence|].
    destruct (IH Hin Hp) as (r' & Hs & Hin' & Hp'). exists r'. auto.
Qed.

Lemma scalar_filter_Some {Row : Type} (p : Row -> bool) (l : list Row) (r : Row) :
  scalar (filter p l) = Some r -> In r l /\ p r = true.
Proof.
  intros H. apply filter_In. destruct (filter p l) as [|x t]; [discriminate|].
  injection H as ->. now left.
Qed.

Lemma NoDup_map_eq {A B : Type} (f : A -> B) (l : list A) (a b : A) :
  NoDup (map f l) -> In a l -> In b l -> f a = f b -> a = b.
Proof.
  induction l as [|x l IH]; simpl; [contradiction|].
  intros Hnd Ha Hb Hf. inversion Hnd as [|y t Hnotin Hnd']; subst.
  destruct Ha as [->|Ha], Hb as [->|Hb]; auto.
  - exfalso. apply Hnotin. rewrite Hf. now apply in_map.
  - exfalso. apply Hnotin. rewrite <- Hf. now apply in_map.
Qed.

Section Accounts.

Context {werkzeug : Werkzeug}.

(** A request that does not pass [validate_on_submit] renders the form
    again and writes nothing. *)
Lemma register_not_validated (env : Env) (req : Request RegisterForm.t) (c : Ctx) :
  validate_on_submit req = false ->
  register env req c = (Returns (render_template "register.html" []), c).
Proof. intros H. unfold register. rewrite H. reflexivity. Qed.

(** C4, amended. When the submitted email is the email of a stored user,
    the [user_accts] table after the request is the table before it,
    whether or not the form validates; and a submission that passes the
    validation of the form is answered with a redirect to the login page,
    with one more flashed message and the database and the session as
    they were. *)
Theorem register_existing_email :
  forall (env : Env) (req : Request RegisterForm.t) (c : Ctx) (u : UserAccts.t),
    In u (user_accts (db c)) ->
    UserAccts.email u = RegisterForm.email (form req) ->
    user_accts (db (snd (register env req c))) = user_accts (db c) /\
    (validate_on_submit req = true ->
     register env req c
     = (Returns (redirect ep_login),
        {| db := db c;
           session_user_id := session_user_id c;
           flashes :=
             flashes c
             ++ ["You've already signed up with that email, log in instead!"]
        |})).
Proof.
  intros env req c u Hin Hemail.
  assert (Hsel : exists r',
             scalar (filter (fun x => UserAccts.email x
                                      =? RegisterForm.email (form req))%string
                       (user_accts (db c))) = Some r').
  { destruct (scalar_filter_In
                (fun x => UserAccts.email x =? RegisterForm.email (form req))%string
                (user_accts (db c)) u Hin) as (r' & Hs & _).
    - now apply String.eqb_eq.
    - now exists r'. }
  destruct Hsel as [r' Hsel].
  assert (Hrun : validate_on_submit req = true ->
                 register env req c
                 = (Returns (redirect ep_login),
                    {| db := db c;
                       session_user_id := session_user_id c;
                       flashes :=
                         flashes c
                         ++ ["You've already signed up with that email, log in instead!"]
                    |})).
  { intros Hv. unfold register. rewrite Hv.
    unfold bind, select_UserAccts_where_email. rewrite Hsel. reflexivity. }
  split; [|exact Hrun].
  destruct (validate_on_submit req) eqn:Hv.
  - rewrite (Hrun eq_refl). reflexivity.
  - rewrite (register_not_validated env req c Hv). reflexivity.
Qed.

(** C7, amended. A login submission that passes the validation of the
    form, on a table whose emails are pairwise different (the unique
    index): with an email that no user has, and with a password that does
    not verify against the hash of the user with that email, the answer is
    a redirect to the login page, one message is flashed, a different one
    in each case, and the session is left as it was; with a password that
    verifies, the session holds the identifier of that user, nothing is
    flashed and the answer is a redirect to the listing.  The database is
    unchanged in all three cases. *)
Theorem login_outcomes :
  forall (req : Request LoginForm.t) (c : Ctx),
    validate_on_submit req = true ->
    NoDup (map UserAccts.email (user_accts (db c))) ->
    ((forall u, In u (user_accts (db c)) ->
                UserAccts.email u <> LoginForm.email (form req)) ->
     login req c
     = (Returns (redirect ep_login),
        {| db := db c;
           session_user_id := session_user_id c;
           flashes :=
             flashes c ++ ["That email does not exist, please try again."] |})) /\
    (forall u,
       In u (user_accts (db c)) ->
       UserAccts.email u = LoginForm.email (form req) ->
       check_password_hash (UserAccts.password u) (LoginForm.password (form req))
       = false ->
       login req c
       = (Returns (redirect ep_login),
          {| db := db c;
             session_user_id := session_user_id c;
             flashes :=
               flashes c ++ ["Password incorrect, please try again."] |})) /\
    (forall u,
       In u (user_accts (db c)) ->
       UserAccts.email u = LoginForm.email (form req) ->
       check_password_hash (UserAccts.password u) (LoginForm.password (form req))
       = true ->
       login req c
       = (Returns (redirect ep_get_all_posts),
          {| db := db c;
             session_user_id := Some (UserAccts.id u);
             flashes := flashes c |})) /\
    "That email does not exist, please try again."
    <> "Password incorrect, please try again.".
Proof.
  intros req c Hv Huniq.
  assert (Hfound : forall u,
             In u (user_accts (db c)) ->
             UserAccts.email u = LoginForm.email (form req) ->
             select_UserAccts_where_email (LoginForm.email (form req)) c
             = (Returns (Some u), c)).
  { intros u Hin He. unfold select_UserAccts_where_email.
    destruct (scalar_filter_In
                (fun x => UserAccts.email x =? LoginForm.email (form req))%string
                (user_accts (db c)) u Hin) as (v & Hs & Hinv & Hev).
    - now apply String.eqb_eq.
    - apply String.eqb_eq in Hev. rewrite Hs.
      rewrite (NoDup_map_eq UserAccts.email (user_accts (db c)) v u); auto.
      congruence. }
  unfold login. rewrite Hv. unfold bind.
  repeat split.
  - intros Hnone. unfold select_UserAccts_where_email.
    destruct (scalar _) as [v|] eqn:Hs; [|reflexivity].
    apply scalar_filter_Some in Hs. destruct Hs as [Hin He].
    apply String.eqb_eq in He. now destruct (Hnone v Hin).
  - intros u Hin He Hpw. rewrite (Hfound u Hin He), Hpw. reflexivity.
  - intros u Hin He Hpw. rewrite (Hfound u Hin He), Hpw. reflexivity.
  - discriminate.
Qed.

End Accounts.

Lemma register_existing_email_witness :
  user_accts (db (snd (register (werkzeug := cleartext) env0 bob_again
                         (as_visitor one_post))))
  = [angela; bob] /\
  register (werkzeug := cleartext) env0 bob_again (as_visitor one_post)
  = (Returns (redirect ep_login),
     mkCtx one_post None
       ["You've already signed up with that email, log in instead!"]).
Proof.
  destruct (register_existing_email (werkzeug := cleartext) env0 bob_again
              (as_visitor one_post) bob) as [Htable Hrun].
  - simpl. auto.
  - reflexivity.
  - split; [exact Htable | apply Hrun; reflexivity].
Defined.

(** C4, as stated, fails: a registration submission with the email of a
    stored user that does not pass the validation of the form is answered
    with the registration page, not with a redirect, and flashes
    nothing. *)
Lemma register_existing_email_rejected_form :
  In bob (user_accts one_post) /\
  UserAccts.email bob = RegisterForm.email (form bob_again_rejected) /\
  is_submitted bob_again_rejected = true /\
  register (werkzeug := cleartext) env0 bob_again_rejected
    (as_visitor one_post)
  = (Returns (render_template "register.html" []), mkCtx one_post None []) /\
  fst (register (werkzeug := cleartext) env0 bob_again_rejected
         (as_visitor one_post))
  <> Returns (redirect ep_login).
Proof. repeat split; simpl; auto. discriminate. Qed.

Lemma login_outcomes_witness :
  login (werkzeug := cleartext) ghost_login (as_visitor one_post)
  = (Returns (redirect ep_login),
     mkCtx one_post None ["That email does not exist, please try again."]) /\
  login (werkzeug := cleartext) bob_wrong_password (as_visitor one_post)
  = (Returns (redirect ep_login),
     mkCtx one_post None ["Password incorrect, please try again."]) /\
  login (werkzeug := cleartext) bob_login (as_visitor one_post)
  = (Returns (redirect ep_get_all_posts), mkCtx one_post (Some 2) []).
Proof.
  assert (Huniq : NoDup (map UserAccts.email (user_accts one_post))).
  { simpl. repeat constructor; simpl; intuition discriminate. }
  split; [|split].
  - destruct (login_outcomes (werkzeug := cleartext) ghost_login
                (as_visitor one_post) eq_refl Huniq) as (Hnone & _).
    apply Hnone. simpl. intros u [<-|[<-|[]]]; discriminate.
  - destruct (login_outcomes (werkzeug := cleartext) bob_wrong_password
                (as_visitor one_post) eq_refl Huniq) as (_ & Hwrong & _).
    apply (Hwrong bob); [simpl; auto | reflexivity | reflexivity].
  - destruct (login_outcomes (werkzeug := cleartext) bob_login
                (as_visitor one_post) eq_refl Huniq) as (_ & _ & Hok & _).
    apply (Hok bob); [simpl; auto | reflexivity | reflexivity].
Defined.

(** C7, as stated, fails: a login submission with an email that no user
    has and that does not pass the validation of the form flashes no
    message and is answered with the login page, not with a redirect. *)
Lemma login_rejected_form :
  (forall u, In u (user_accts one_post) ->
             UserAccts.email u <> LoginForm.email (form ghost_login_rejected)) /\
  is_submitted ghost_login_rejected = true /\
  login (werkzeug := cleartext) ghost_login_rejected (as_visitor one_post)
  = (Returns (render_template "login.html" []), mkCtx one_post None []) /\
  fst (login (werkzeug := cleartext) ghost_login_rejected
         (as_visitor one_post))
  <> Returns (redirect ep_login).
Proof.
  repeat split; simpl; auto.
  - intros u [<-|[<-|[]]]; discriminate.
  - discriminate.
Qed.

(** ** Comments *)

Lemma find_pk_In {Row : Type} (pk : Row -> Z) (i : Z) (l : list Row) (r : Row) :
  In r l -> pk r = i -> exists r', find (fun x => pk x =? i) l = Some r'.
Proof.
  intros Hin Hpk. destruct (find (fun x => pk x =? i) l) as [r'|] eqn:E.
  - now exists r'.
  - apply (find_none _ _ E) in Hin. simpl in Hin.
    apply Z.eqb_neq in Hin. contradiction.
Qed.

(** C5, amended. On an existing post and without a logged-in user, the
    [comments] table after the request is the table before it, whether or
    not the form validates; and a comment submission that passes the
    validation of the form is answered with a redirect to the login page,
    with one more flashed message and the database and the session as
    they were. *)
Theorem show_post_comment_unauthenticated :
  forall (post_id : Z) (req : Request CommentForm.t) (c : Ctx) (p : BlogPost.t),
    In p (blog_posts (db c)) ->
    BlogPost.id p = post_id ->
    session_user_id c = None ->
    comments (db (snd (show_post post_id req c))) = comments (db c) /\
    (validate_on_submit req = true ->
     show_post post_id req c
     = (Returns (redirect ep_login),
        {| db := db c;
           session_user_id := None;
           flashes :=
             flashes c ++ ["You need to Login or register to comment"] |})).
Proof.
  intros post_id req c p Hin Hid Hanon.
  destruct (find_pk_In BlogPost.id post_id _ p Hin Hid) as [p' Hfind].
  unfold show_post, bind, get_or_404. rewrite Hfind.
  destruct (validate_on_submit req); simpl.
  - rewrite (current_user_anonymous c Hanon). simpl. split; [reflexivity|].
    intros _. unfold with_flash. now rewrite Hanon.
  - split; [reflexivity | discriminate].
Qed.

Lemma show_post_comment_unauthenticated_witness :
  show_post 1 nice_comment (as_visitor one_post)
  = (Returns (redirect ep_login),
     mkCtx one_post None ["You need to Login or register to comment"]) /\
  comments (db (snd (show_post 1 nice_comment (as_visitor one_post)))) = [].
Proof.
  destruct (show_post_comment_unauthenticated 1 nice_comment
              (as_visitor one_post) hello) as [Htable Hrun].
  - simpl. auto.
  - reflexivity.
  - reflexivity.
  - split; [apply Hrun; reflexivity | exact Htable].
Defined.

(** C5, as stated, fails: a comment submission by a visitor who is not
    logged in that does not pass the validation of the form is answered
    with the page of the post, not with a redirect, and flashes
    nothing. *)
Lemma show_post_comment_rejected_form :
  In hello (blog_posts one_post) /\
  session_user_id (as_visitor one_post) = None /\
  is_submitted empty_comment = true /\
  show_post 1 empty_comment (as_visitor one_post)
  = (Returns (render_template "post.html" [hello]), mkCtx one_post None []) /\
  fst (show_post 1 empty_comment (as_visitor one_post))
  <> Returns (redirect ep_login).
Proof. repeat split; simpl; auto. discriminate. Qed.

(** A logged-in user's validated comment is stored with that user as
    author and the post as parent. *)
Example show_post_comment_by_bob :
  show_post 1 nice_comment (as_bob one_post)
  = (Returns (render_template "post.html" [hello]),
     as_bob {| user_accts := [angela; bob]; blog_posts := [hello];
               comments := [nice] |}).
Proof. reflexivity. Qed.

(** ** Deleting a post *)

(** X13. A post with a comment cannot be deleted: the request ends in an
    IntegrityError and nothing is written. *)
Lemma delete_post_with_comment (post_id : Z) (c : Ctx) (p : BlogPost.t)
    (k : Comment.t) :
  In p (blog_posts (db c)) -> BlogPost.id p = post_id ->
  In k (comments (db c)) -> Comment.post_id k = post_id ->
  delete_post post_id c
  = (Raises (IntegrityError "NOT NULL constraint failed: comments.post_id"), c).
Proof.
  intros Hin Hid Hk Hkp.
  destruct (find_pk_In BlogPost.id post_id _ p Hin Hid) as [p' Hfind].
  unfold delete_post, bind, get_or_404. rewrite Hfind.
  apply find_pk_Some in Hfind. destruct Hfind as [_ Hid'].
  unfold delete_BlogPost.
  replace (existsb _ (comments (db c))) with true; [reflexivity|].
  symmetry. apply existsb_exists. exists k. split; [assumption|].
  apply Z.eqb_eq. congruence.
Qed.

(** X14. A post without comments is deleted, whoever asks: every row
    with that identifier leaves [blog_posts], the other rows and tables
    stay, and the answer is a redirect to the listing. *)
Lemma delete_post_without_comment (post_id : Z) (c : Ctx) (p : BlogPost.t) :
  In p (blog_posts (db c)) -> BlogPost.id p = post_id ->
  (forall k, In k (comments (db c)) -> Comment.post_id k <> post_id) ->
  delete_post post_id c
  = (Returns (redirect ep_get_all_posts),
     with_db c {| user_accts := user_accts (db c);
                  blog_posts :=
                    filter (fun q => negb (BlogPost.id q =? post_id))
                      (blog_posts (db c));
                  comments := comments (db c) |}).
Proof.
  intros Hin Hid Hnone.
  destruct (find_pk_In BlogPost.id post_id _ p Hin Hid) as [p' Hfind].
  unfold delete_post, bind, get_or_404. rewrite Hfind.
  apply find_pk_Some in Hfind. destruct Hfind as [_ Hid'].
  unfold delete_BlogPost. rewrite Hid'.
  replace (existsb _ (comments (db c))) with false; [reflexivity|].
  symmetry. apply not_true_is_false. intros H.
  apply existsb_exists in H. destruct H as (k & Hk & Hkp).
  apply Z.eqb_eq in Hkp. exact (Hnone k Hk Hkp).
Qed.

(** What [delete_post] does to a stored post, by cases on its comments. *)
Lemma delete_post_cases (post_id : Z) (c : Ctx) (p : BlogPost.t) :
  In p (blog_posts (db c)) -> BlogPost.id p = post_id ->
  delete_post post_id c
  = if existsb (fun k => Comment.post_id k =? post_id) (comments (db c))
    then (Raises (IntegrityError "NOT NULL constraint failed: comments.post_id"),
          c)
    else (Returns (redirect ep_get_all_posts),
          {| db := {| user_accts := user_accts (db c);
                      blog_posts :=
                        filter (fun q => negb (BlogPost.id q =? post_id))
                          (blog_posts (db c));
                      comments := comments (db c) |};
             session_user_id := session_user_id c;
             flashes := flashes c |}).
Proof.
  intros Hin Hid.
  destruct (find_pk_In BlogPost.id post_id _ p Hin Hid) as [p' Hfind].
  unfold delete_post, bind, get_or_404. rewrite Hfind.
  apply find_pk_Some in Hfind. destruct Hfind as [_ Hid'].
  unfold delete_BlogPost. rewrite Hid'.
  destruct (existsb _ _); reflexivity.
Qed.

(** C10, amended. A request to delete an existing post leaves the
    [comments] table exactly as it was.  When a comment refers to the post,
    the request fails with an IntegrityError and the post stays, with all
    tables as they were; the request succeeds only when no comment refers
    to the post, and then no row with that identifier is left in
    [blog_posts].  So no comment is deleted, modified or left without its
    post. *)
Theorem delete_post_keeps_comments :
  forall (post_id : Z) (c : Ctx) (p : BlogPost.t),
    In p (blog_posts (db c)) ->
    BlogPost.id p = post_id ->
    comments (db (snd (delete_post post_id c))) = comments (db c) /\
    (forall k, In k (comments (db c)) -> Comment.post_id k = post_id ->
       delete_post post_id c
       = (Raises (IntegrityError "NOT NULL constraint failed: comments.post_id"),
          c)) /\
    (forall r c', delete_post post_id c = (Returns r, c') ->
       (forall k, In k (comments (db c)) -> Comment.post_id k <> post_id) /\
       (forall q, In q (blog_posts (db c')) -> BlogPost.id q <> post_id)).
Proof.
  intros post_id c p Hin Hid.
  rewrite (delete_post_cases post_id c p Hin Hid).
  destruct (existsb _ _) eqn:Ex.
  - split; [reflexivity|]. split; [reflexivity|]. discriminate.
  - split; [reflexivity|]. split.
    + intros k Hk Hkp. exfalso.
      assert (E : existsb (fun k => Comment.post_id k =? post_id)
                    (comments (db c)) = true).
      { apply existsb_exists. exists k. split; [exact Hk|].
        now apply Z.eqb_eq. }
      congruence.
    + intros r c' Hrun. injection Hrun as _ <-. split.
      * intros k Hk Hkp.
        assert (E : existsb (fun k => Comment.post_id k =? post_id)
                      (comments (db c)) = true).
        { apply existsb_exists. exists k. split; [exact Hk|].
          now apply Z.eqb_eq. }
        congruence.
      * simpl. intros q Hq. apply filter_In in Hq. destruct Hq as [_ Hne].
        now apply negb_true_iff, Z.eqb_neq in Hne.
Qed.

Lemma delete_post_keeps_comments_witness :
  comments (db (snd (delete_post 1 (as_angela two_posts)))) = [nice] /\
  delete_post 1 (as_angela two_posts)
  = (Raises (IntegrityError "NOT NULL constraint failed: comments.post_id"),
     mkCtx two_posts (Some 1) []).
Proof.
  destruct (delete_post_keeps_comments 1 (as_angela two_posts) hello)
    as (Htable & Hfails & _).
  - simpl. auto.
  - reflexivity.
  - split; [exact Htable|]. apply (Hfails nice); [simpl; auto | reflexivity].
Defined.

(** C10, as stated, fails: the comments of a deleted post are not left
    behind without it.  The request to delete post 1, which has a comment,
    ends as a server error; afterwards the post is still stored and the
    comment still refers to it. *)
Lemma delete_post_commented_post_stays :
  In hello (blog_posts two_posts) /\
  In nice (comments two_posts) /\
  Comment.post_id nice = BlogPost.id hello /\
  status (fst (delete_post 1 (as_angela two_posts))) = 500 /\
  In hello (blog_posts (db (snd (delete_post 1 (as_angela two_posts))))) /\
  In nice (comments (db (snd (delete_post 1 (as_angela two_posts))))).
Proof. repeat split; simpl; auto. Qed.

(** ** What every request preserves *)

Section Preservation.

Variable Inv : Database -> Prop.

Lemma reads_only_preserves {A : Type} (m : M A) :
  reads_only m -> preserves Inv m.
Proof. intros H c Hc. now rewrite H. Qed.

Lemma preserves_ret {A : Type} (a : A) : preserves Inv (ret a).
Proof. intros c Hc. exact Hc. Qed.

Lemma preserves_raise {A : Type} (e : Exception) : preserves Inv (@raise A e).
Proof. intros c Hc. exact Hc. Qed.

Lemma preserves_bind {A B : Type} (m : M A) (k : A -> M B) :
  preserves Inv m -> (forall a, preserves Inv (k a)) -> preserves Inv (bind m k).
Proof.
  intros Hm Hk c Hc. unfold bind. specialize (Hm c Hc).
  destruct (m c) as [[a|e] c']; simpl in *.
  - now apply Hk.
  - exact Hm.
Qed.

End Preservation.

Lemma reads_only_get_or_404 {Row : Type} (table : Database -> list Row)
    (pk : Row -> Z) (i : Z) :
  reads_only (get_or_404 table pk i).
Proof. intros c. unfold get_or_404. now destruct (find _ _). Qed.

Lemma reads_only_current_user : reads_only current_user.
Proof.
  intros c. unfold current_user, load_user, bind, ret, get_or_404.
  destruct (session_user_id c); [|reflexivity]. now destruct (find _ _).
Qed.

Lemma reads_only_current_user_id : reads_only current_user_id.
Proof.
  intros c. unfold current_user_id, bind.
  pose proof (reads_only_current_user c) as H.
  destruct (current_user c) as [[[|a]|e] c']; exact H.
Qed.

Lemma reads_only_flash (message : string) : reads_only (flash message).
Proof. intros c. reflexivity. Qed.

Lemma reads_only_login_user (u : UserAccts.t) : reads_only (login_user u).
Proof. intros c. reflexivity. Qed.

Lemma reads_only_logout_user : reads_only logout_user.
Proof.
  intros c. unfold logout_user, bind.
  pose proof (reads_only_current_user c) as H.
  destruct (current_user c) as [[u|e] c']; simpl in *; exact H.
Qed.

Lemma reads_only_select_UserAccts (email : string) :
  reads_only (select_UserAccts_where_email email).
Proof. intros c. reflexivity. Qed.

Lemma reads_only_select_BlogPost : reads_only select_BlogPost.
Proof. intros c. reflexivity. Qed.

(** ** The unique indexes *)

Lemma fold_max_bounds (i : Z) (rest : list Z) :
  forall x, In x (i :: rest) -> x <= fold_right Z.max i rest.
Proof.
  induction rest as [|y rest IH]; simpl.
  - intros x [->|[]]. lia.
  - intros x [->|[->|Hx]].
    + specialize (IH x (or_introl eq_refl)). lia.
    + lia.
    + specialize (IH x (or_intror Hx)). lia.
Qed.

Lemma next_id_fresh (ids : list Z) : ~ In (next_id ids) ids.
Proof.
  destruct ids as [|i rest]; [intros []|].
  intros Hin. apply fold_max_bounds in Hin. unfold next_id in Hin. lia.
Qed.

Lemma NoDup_snoc {A : Type} (l : list A) (a : A) :
  NoDup l -> ~ In a l -> NoDup (l ++ [a]).
Proof.
  intros Hl Ha. apply NoDup_app; [exact Hl | repeat constructor; auto |].
  intros x Hx [<-|[]]. contradiction.
Qed.

Lemma existsb_eqb_false {Row : Type} (f : Row -> string) (s : string)
    (l : list Row) :
  existsb (fun r => f r =? s)%string l = false -> ~ In s (map f l).
Proof.
  intros H Hin. apply in_map_iff in Hin. destruct Hin as (r & Hr & Hin).
  assert (E : existsb (fun r => f r =? s)%string l = true).
  { apply existsb_exists. exists r. split; [exact Hin | now apply String.eqb_eq]. }
  congruence.
Qed.

(** Deleting rows keeps a column free of duplicates. *)
Lemma filter_rows_NoDup {Row Key : Type} (key : Row -> Key)
    (keep : Row -> bool) (rows : list Row) :
  NoDup (map key rows) -> NoDup (map key (filter keep rows)).
Proof.
  intros Hrows. induction rows as [|r rows IH]; simpl; [constructor|].
  simpl in Hrows. apply NoDup_cons_iff in Hrows. destruct Hrows as [Hr Hrows].
  destruct (keep r); simpl; [|auto].
  apply NoDup_cons; [|auto].
  intros Hin. apply Hr. apply in_map_iff in Hin.
  destruct Hin as (r' & Hkey & Hin). apply filter_In in Hin.
  rewrite <- Hkey. apply in_map. tauto.
Qed.

Section Update.

Variable p : BlogPost.t.

Lemma assign_keeps_id (l : list BlogPost.t) :
  map BlogPost.id (map (assign p) l) = map BlogPost.id l.
Proof.
  induction l as [|q l IH]; simpl; [reflexivity|]. rewrite IH. f_equal.
  unfold assign. destruct (Z.eqb_spec (BlogPost.id q) (BlogPost.id p)); auto.
Qed.

Lemma assign_other_rows (l : list BlogPost.t) :
  ~ In (BlogPost.id p) (map BlogPost.id l) -> map (assign p) l = l.
Proof.
  induction l as [|q l IH]; simpl; [reflexivity|].
  intros H. rewrite IH by tauto. f_equal. unfold assign.
  destruct (Z.eqb_spec (BlogPost.id q) (BlogPost.id p)); [|reflexivity].
  exfalso. apply H. now left.
Qed.

Lemma assign_titles (l : list BlogPost.t) (t : string) :
  In t (map BlogPost.title (map (assign p) l)) ->
  In t (map BlogPost.title l) \/ t = BlogPost.title p.
Proof.
  induction l as [|q l IH]; simpl; [tauto|].
  intros [H|H]; [|tauto]. unfold assign in H.
  destruct (BlogPost.id q =? BlogPost.id p); auto.
Qed.

Lemma NoDup_titles_assign (l : list BlogPost.t) :
  NoDup (map BlogPost.id l) ->
  NoDup (map BlogPost.title l) ->
  existsb (fun q => negb (BlogPost.id q =? BlogPost.id p)
                    && (BlogPost.title q =? BlogPost.title p)%string) l = false ->
  NoDup (map BlogPost.title (map (assign p) l)).
Proof.
  induction l as [|q l IH]; simpl; [constructor|].
  intros Hid Htitle Hex.
  inversion Hid as [|? ? Hq_id Hid']; subst.
  inversion Htitle as [|? ? Hq_title Htitle']; subst.
  apply orb_false_iff in Hex. destruct Hex as [Hq Hex].
  unfold assign at 1.
  destruct (Z.eqb_spec (BlogPost.id q) (BlogPost.id p)) as [E|E].
  - rewrite assign_other_rows by (rewrite <- E; exact Hq_id).
    constructor; [|exact Htitle'].
    intros Hin. apply in_map_iff in Hin. destruct Hin as (r & Hr & Hin).
    assert (Hr' : negb (BlogPost.id r =? BlogPost.id p)
                  && (BlogPost.title r =? BlogPost.title p)%string = false).
    { destruct (existsb _ l) eqn:Ex in Hex; [discriminate|].
      rewrite <- not_true_iff_false in Ex.
      apply not_true_is_false. intros Ht. apply Ex.
      apply existsb_exists. now exists r. }
    apply andb_false_iff in Hr'. destruct Hr' as [Hr'|Hr'].
    + apply negb_false_iff, Z.eqb_eq in Hr'.
      apply Hq_id. rewrite E, <- Hr'. now apply in_map.
    + apply String.eqb_neq in Hr'. contradiction.
  - constructor; [|now apply IH].
    intros Hin. apply assign_titles in Hin. destruct Hin as [Hin|Hin].
    + contradiction.
    + simpl in Hq. apply String.eqb_neq in Hq. contradiction.
Qed.

End Update.

Lemma preserves_add_UserAccts (name email password : string) :
  preserves constraints (add_UserAccts name email password).
Proof.
  intros c (Hemail & Hid & Htitle). unfold add_UserAccts.
  destruct (existsb _ _) eqn:E; unfold constraints; simpl; [now repeat split|].
  repeat split; auto. rewrite map_app. simpl.
  apply NoDup_snoc; [exact Hemail|]. now apply existsb_eqb_false.
Qed.

Lemma preserves_add_BlogPost (title subtitle body img_url : string)
    (author : Z) (date : string) :
  preserves constraints (add_BlogPost title subtitle body img_url author date).
Proof.
  intros c (Hemail & Hid & Htitle). unfold add_BlogPost.
  destruct (existsb _ _) eqn:E; unfold constraints; simpl; [now repeat split|].
  repeat split; auto; rewrite map_app; simpl; apply NoDup_snoc; auto.
  - apply next_id_fresh.
  - now apply existsb_eqb_false.
Qed.

Lemma preserves_add_Comment (text : string) (comment_author parent_post : Z) :
  preserves constraints (add_Comment text comment_author parent_post).
Proof. intros c H. exact H. Qed.

Lemma preserves_update_BlogPost (p : BlogPost.t) :
  preserves constraints (update_BlogPost p).
Proof.
  intros c (Hemail & Hid & Htitle). unfold update_BlogPost.
  destruct (existsb _ _) eqn:E; unfold constraints; simpl; [now repeat split|].
  repeat split; auto.
  - now rewrite assign_keeps_id.
  - now apply NoDup_titles_assign.
Qed.

Lemma preserves_delete_BlogPost (p : BlogPost.t) :
  preserves constraints (delete_BlogPost p).
Proof.
  intros c (Hemail & Hid & Htitle). unfold delete_BlogPost.
  destruct (existsb _ _) eqn:E; unfold constraints; simpl; [now repeat split|].
  repeat split; auto; now apply filter_rows_NoDup.
Qed.

Create HintDb blog.

#[local] Hint Resolve reads_only_get_or_404 reads_only_current_user
  reads_only_current_user_id reads_only_flash reads_only_login_user
  reads_only_logout_user reads_only_select_UserAccts
  reads_only_select_BlogPost : blog.

#[local] Hint Resolve preserves_add_UserAccts preserves_add_BlogPost
  preserves_add_Comment preserves_update_BlogPost
  preserves_delete_BlogPost : blog.

Ltac preserve :=
  repeat first
    [ apply preserves_ret
    | apply preserves_raise
    | apply preserves_bind; [|intros ?]
    | apply reads_only_preserves; solve [auto with blog]
    | solve [auto with blog]
    | match goal with
      | |- preserves _ (if ?b then _ else _) => destruct b
      | |- preserves _ (match ?x with _ => _ end) => destruct x
      end ].

Lemma preserves_show_post (post_id : Z) (req : Request CommentForm.t) :
  preserves constraints (show_post post_id req).
Proof. unfold show_post. preserve. Qed.

Lemma preserves_add_new_post (env : Env) (req : Request CreatePostForm.t) :
  preserves constraints (add_new_post env req).
Proof. unfold add_new_post, admin_only, abort. preserve. Qed.

Lemma preserves_edit_post (post_id : Z) (req : Request CreatePostForm.t) :
  preserves constraints (edit_post post_id req).
Proof. unfold edit_post, admin_only, abort. preserve. Qed.

Lemma preserves_delete_post (post_id : Z) :
  preserves constraints (delete_post post_id).
Proof. unfold delete_post. preserve. Qed.

Section Reachable.

Context {werkzeug : Werkzeug}.

Lemma preserves_register (env : Env) (req : Request RegisterForm.t) :
  preserves constraints (register env req).
Proof. unfold register. cbv zeta. preserve. Qed.

Lemma preserves_login (req : Request LoginForm.t) :
  preserves constraints (login req).
Proof. unfold login. cbv zeta. preserve. Qed.

Lemma preserves_app (q : HttpRequest) : preserves constraints (app q).
Proof.
  destruct q; simpl.
  - apply preserves_register.
  - apply preserves_login.
  - unfold logout. preserve.
  - unfold get_all_posts. preserve.
  - apply preserves_show_post.
  - apply preserves_add_new_post.
  - apply preserves_edit_post.
  - apply preserves_delete_post.
  - unfold about. preserve.
  - unfold contact. preserve.
Qed.

(** The unique indexes and the primary key of the posts hold in every
    database the application reaches. *)
Lemma reachable_constraints (d : Database) : reachable d -> constraints d.
Proof.
  induction 1 as [|d q session fl Hd IH].
  - repeat split; constructor.
  - apply (preserves_app q (mkCtx d session fl)). exact IH.
Qed.

(** C6. Storing a post whose title is the title of a stored post fails
    with an IntegrityError on the unique index and writes nothing, in the
    ORM call and hence in [add_new_post] for the administrator; and in
    every database that the application reaches from the empty tables, by
    any requests, the titles of the posts are pairwise different. *)
Theorem post_titles_unique :
  (forall (title subtitle body img_url date : string) (author : Z)
          (c : Ctx) (p : BlogPost.t),
      In p (blog_posts (db c)) ->
      BlogPost.title p = title ->
      add_BlogPost title subtitle body img_url author date c
      = (Raises (IntegrityError "UNIQUE constraint failed: blog_posts.title"),
         c)) /\
  (forall (env : Env) (req : Request CreatePostForm.t) (c : Ctx)
          (u : UserAccts.t) (p : BlogPost.t),
      current_user c = (Returns (Account u), c) ->
      UserAccts.id u = 1 ->
      validate_on_submit req = true ->
      In p (blog_posts (db c)) ->
      BlogPost.title p = CreatePostForm.title (form req) ->
      add_new_post env req c
      = (Raises (IntegrityError "UNIQUE constraint failed: blog_posts.title"),
         c)) /\
  (forall d : Database,
      reachable d ->
      NoDup (map BlogPost.title (blog_posts d)) /\
      (forall p q, In p (blog_posts d) -> In q (blog_posts d) ->
                   BlogPost.title p = BlogPost.title q -> p = q)).
Proof.
  assert (Hstore : forall title subtitle body img_url date author c p,
             In p (blog_posts (db c)) ->
             BlogPost.title p = title ->
             add_BlogPost title subtitle body img_url author date c
             = (Raises (IntegrityError "UNIQUE constraint failed: blog_posts.title"),
                c)).
  { intros title subtitle body img_url date author c p Hin Ht.
    unfold add_BlogPost.
    replace (existsb _ (blog_posts (db c))) with true; [reflexivity|].
    symmetry. apply existsb_exists. exists p.
    split; [exact Hin | now apply String.eqb_eq]. }
  split; [exact Hstore | split].
  - intros env req c u p Hu H1 Hv Hin Ht.
    unfold add_new_post. rewrite (admin_only_admin _ tt c u Hu H1), Hv.
    unfold bind. rewrite (current_user_id_Account c u Hu).
    now rewrite (Hstore _ _ _ _ _ _ c p Hin Ht).
  - intros d Hd. destruct (reachable_constraints d Hd) as (_ & _ & Htitle).
    split; [exact Htitle|]. intros p q Hp Hq Hpq.
    now apply (NoDup_map_eq BlogPost.title (blog_posts d)).
Qed.

End Reachable.

Example after_hello_tables :
  after_hello
  = {| user_accts := [angela];
       blog_posts :=
         [BlogPost.mk 1 1 "Hello" "Again" "March 05, 2024" "<p>Hi!</p>"
            "https://example.com/c.png"];
       comments := [] |}.
Proof. reflexivity. Qed.

Lemma post_titles_unique_witness :
  NoDup (map BlogPost.title (blog_posts after_hello)) /\
  add_new_post env0 hello_request (as_angela after_hello)
  = (Raises (IntegrityError "UNIQUE constraint failed: blog_posts.title"),
     as_angela after_hello).
Proof.
  destruct (post_titles_unique (werkzeug := cleartext))
    as (_ & Hview & Hreach).
  split.
  - apply Hreach. unfold after_hello, after_signup.
    apply reachable_request. apply reachable_request.
    apply reachable_create_all.
  - eapply Hview.
    + reflexivity.
    + reflexivity.
    + reflexivity.
    + simpl. left. reflexivity.
    + reflexivity.
Defined.

(** ** Creating and editing posts *)

(** C8, as stated, fails: the administrator's validated submission with
    the title of a stored post creates no post and is not answered with a
    redirect; the commit raises and the request ends as a server error. *)
Lemma add_new_post_duplicate_title :
  current_user (as_angela one_post)
  = (Returns (Account angela), as_angela one_post) /\
  validate_on_submit hello_request = true /\
  add_new_post env0 hello_request (as_angela one_post)
  = (Raises IntegrityError_title, as_angela one_post) /\
  blog_posts (db (snd (add_new_post env0 hello_request (as_angela one_post))))
  = [hello] /\
  fst (add_new_post env0 hello_request (as_angela one_post))
  <> Returns (redirect ep_get_all_posts).
Proof. repeat split. discriminate. Qed.

(** C8, amended. For a validated create-post submission by the
    administrator whose title is not the title of a stored post, exactly
    one row is appended to [blog_posts]: it has a fresh primary key, the
    submitted title, subtitle, body and image, the identifier of the
    current user as author and today's date as "%B %d, %Y"; the other
    tables and the session are unchanged and the answer is a redirect to
    the listing. *)
Theorem add_new_post_creates_post :
  forall (env : Env) (req : Request CreatePostForm.t) (c : Ctx)
         (u : UserAccts.t),
    current_user c = (Returns (Account u), c) ->
    UserAccts.id u = 1 ->
    validate_on_submit req = true ->
    (forall p, In p (blog_posts (db c)) ->
               BlogPost.title p <> CreatePostForm.title (form req)) ->
    let new_post :=
      {| BlogPost.id := next_id (map BlogPost.id (blog_posts (db c)));
         BlogPost.author_id := UserAccts.id u;
         BlogPost.title := CreatePostForm.title (form req);
         BlogPost.subtitle := CreatePostForm.subtitle (form req);
         BlogPost.date := strftime_B_d_Y (today env);
         BlogPost.body := CreatePostForm.body (form req);
         BlogPost.img_url := CreatePostForm.img_url (form req) |} in
    add_new_post env req c
    = (Returns (redirect ep_get_all_posts),
       with_db c {| user_accts := user_accts (db c);
                    blog_posts := blog_posts (db c) ++ [new_post];
                    comments := comments (db c) |}) /\
    ~ In (BlogPost.id new_post) (map BlogPost.id (blog_posts (db c))).
Proof.
  intros env req c u Hu H1 Hv Hfresh new_post. split.
  - unfold add_new_post. rewrite (admin_only_admin _ tt c u Hu H1), Hv.
    unfold bind. rewrite (current_user_id_Account c u Hu).
    unfold add_BlogPost.
    replace (existsb _ (blog_posts (db c))) with false; [reflexivity|].
    symmetry. apply not_true_is_false. intros H.
    apply existsb_exists in H. destruct H as (p & Hp & Ht).
    apply String.eqb_eq in Ht. exact (Hfresh p Hp Ht).
  - apply next_id_fresh.
Qed.

Lemma add_new_post_creates_post_witness :
  add_new_post (mkEnv (mkdate 2024 March 6) "abc")
    (mkRequest POST cactus_form true) (as_angela one_post)
  = (Returns (redirect ep_get_all_posts),
     as_angela {| user_accts := [angela; bob];
                  blog_posts := [hello; cactus];
                  comments := [] |}).
Proof.
  destruct (add_new_post_creates_post (mkEnv (mkdate 2024 March 6) "abc")
              (mkRequest POST cactus_form true) (as_angela one_post) angela)
    as [Hrun _].
  - reflexivity.
  - reflexivity.
  - reflexivity.
  - simpl. intros p [<-|[]]. discriminate.
  - exact Hrun.
Defined.

(** C9, as stated, fails: the administrator's validated edit of post 2
    with the title of post 1 overwrites nothing and is not answered with
    a redirect; the commit raises and the request ends as a server
    error. *)
Lemma edit_post_duplicate_title :
  current_user (as_angela two_posts)
  = (Returns (Account angela), as_angela two_posts) /\
  validate_on_submit hello_request = true /\
  In cactus (blog_posts two_posts) /\
  edit_post 2 hello_request (as_angela two_posts)
  = (Raises IntegrityError_title, as_angela two_posts) /\
  blog_posts (db (snd (edit_post 2 hello_request (as_angela two_posts))))
  = [hello; cactus] /\
  fst (edit_post 2 hello_request (as_angela two_posts))
  <> Returns (redirect (ep_show_post 2)).
Proof. repeat split; simpl; auto. discriminate. Qed.

(** C9, amended. For a validated edit-post submission by the
    administrator on a stored post, when no other post has the submitted
    title: the row of that post keeps its primary key and its date, takes
    the submitted title, subtitle, image and body and the identifier of
    the current user as author; every other row of [blog_posts] and the
    other tables are as before; the answer is a redirect to the page of
    that post. *)
Theorem edit_post_overwrites :
  forall (post_id : Z) (req : Request CreatePostForm.t) (c : Ctx)
         (u : UserAccts.t) (p : BlogPost.t),
    current_user c = (Returns (Account u), c) ->
    UserAccts.id u = 1 ->
    validate_on_submit req = true ->
    NoDup (map BlogPost.id (blog_posts (db c))) ->
    In p (blog_posts (db c)) ->
    BlogPost.id p = post_id ->
    (forall q, In q (blog_posts (db c)) -> BlogPost.id q <> post_id ->
               BlogPost.title q <> CreatePostForm.title (form req)) ->
    let edited :=
      {| BlogPost.id := post_id;
         BlogPost.author_id := UserAccts.id u;
         BlogPost.title := CreatePostForm.title (form req);
         BlogPost.subtitle := CreatePostForm.subtitle (form req);
         BlogPost.date := BlogPost.date p;
         BlogPost.body := CreatePostForm.body (form req);
         BlogPost.img_url := CreatePostForm.img_url (form req) |} in
    let posts' :=
      map (fun q => if BlogPost.id q =? post_id then edited else q)
        (blog_posts (db c)) in
    edit_post post_id req c
    = (Returns (redirect (ep_show_post post_id)),
       with_db c {| user_accts := user_accts (db c);
                    blog_posts := posts';
                    comments := comments (db c) |}) /\
    In edited posts' /\
    (forall q, In q (blog_posts (db c)) -> BlogPost.id q <> post_id ->
               In q posts') /\
    (forall q, In q posts' -> q = edited \/ In q (blog_posts (db c))) /\
    List.length posts' = List.length (blog_posts (db c)).
Proof.
  intros post_id req c u p Hu H1 Hv Hkey Hin Hid Hother edited posts'.
  split; [|split; [|split; [|split]]].
  - destruct (find_pk_In BlogPost.id post_id _ p Hin Hid) as [p' Hfind].
    assert (p' = p) as ->.
    { apply find_pk_Some in Hfind. destruct Hfind as [Hin' Hid'].
      apply (NoDup_map_eq BlogPost.id (blog_posts (db c))); auto. congruence. }
    unfold edit_post. rewrite (admin_only_admin _ post_id c u Hu H1).
    unfold bind at 1. unfold get_or_404. rewrite Hfind, Hv.
    unfold bind. rewrite (current_user_id_Account c u Hu).
    unfold update_BlogPost. simpl BlogPost.id. simpl BlogPost.title.
    rewrite Hid.
    replace (existsb _ (blog_posts (db c))) with false; [reflexivity|].
    symmetry. apply not_true_is_false. intros H.
    apply existsb_exists in H. destruct H as (q & Hq & Hc).
    apply andb_true_iff in Hc. destruct Hc as [Hne Ht].
    apply negb_true_iff, Z.eqb_neq in Hne. apply String.eqb_eq in Ht.
    exact (Hother q Hq Hne Ht).
  - unfold posts'. apply in_map_iff. exists p. split; [|exact Hin].
    rewrite Hid, Z.eqb_refl. reflexivity.
  - intros q Hq Hne. unfold posts'. apply in_map_iff. exists q.
    split; [|exact Hq]. apply Z.eqb_neq in Hne. now rewrite Hne.
  - intros q Hq. unfold posts' in Hq. apply in_map_iff in Hq.
    destruct Hq as (r & Hr & Hin'). destruct (BlogPost.id r =? post_id).
    + left. now symmetry.
    + right. now subst.
  - unfold posts'. apply length_map.
Qed.

Lemma edit_post_overwrites_witness :
  edit_post 2 cactus_edit (as_angela two_posts)
  = (Returns (redirect (ep_show_post 2)),
     as_angela
       {| user_accts := [angela; bob];
          blog_posts :=
            [hello;
             BlogPost.mk 2 1 "Cacti" "Many" "March 06, 2024" "<p>Ouch</p>"
               "https://example.com/d.png"];
          comments := [nice] |}).
Proof.
  destruct (edit_post_overwrites 2 cactus_edit (as_angela two_posts)
              angela cactus) as [Hrun _].
  - reflexivity.
  - reflexivity.
  - reflexivity.
  - simpl. repeat constructor; simpl; intuition discriminate.
  - simpl. auto.
  - reflexivity.
  - simpl. intros q [<-|[<-|[]]] Hne; [discriminate | now destruct Hne].
  - exact Hrun.
Defined.

(** * Further properties of the views *)

(** ** Registration *)

Lemma filter_no_row {Row : Type} (keep : Row -> bool) (rows : list Row) :
  (forall r, In r rows -> keep r = false) -> filter keep rows = [].
Proof.
  induction rows as [|r rows IH]; simpl; [reflexivity|].
  intros H. rewrite (H r) by now left. apply IH. intros x Hx. apply H. now right.
Qed.

Lemma email_not_stored (email : string) (users : list UserAccts.t) :
  (forall u, In u users -> UserAccts.email u <> email) ->
  filter (fun u => UserAccts.email u =? email)%string users = [] /\
  existsb (fun u => UserAccts.email u =? email)%string users = false.
Proof.
  intros H. split.
  - apply filter_no_row. intros u Hu. apply String.eqb_neq. now apply H.
  - apply not_true_is_false. intros E. apply existsb_exists in E.
    destruct E as (u & Hu & E). apply String.eqb_eq in E. exact (H u Hu E).
Qed.

Section Signup.

Context {werkzeug : Werkzeug}.

Lemma register_fresh_run (env : Env) (req : Request RegisterForm.t) (c : Ctx) :
  validate_on_submit req = true ->
  (forall u, In u (user_accts (db c)) ->
             UserAccts.email u <> RegisterForm.email (form req)) ->
  register env req c
  = (Returns (redirect ep_get_all_posts),
     {| db := {| user_accts :=
                   user_accts (db c)
                   ++ [{| UserAccts.id :=
                            next_id (map UserAccts.id (user_accts (db c)));
                          UserAccts.email := RegisterForm.email (form req);
                          UserAccts.password :=
                            generate_password_hash
                              (RegisterForm.password (form req)) (salt env);
                          UserAccts.name := RegisterForm.name (form req) |}];
                 blog_posts := blog_posts (db c);
                 comments := comments (db c) |};
        session_user_id :=
          Some (next_id (map UserAccts.id (user_accts (db c))));
        flashes := flashes c |}).
Proof.
  intros Hv Hfresh. apply email_not_stored in Hfresh.
  destruct Hfresh as [Hfilter Hex].
  unfold register. rewrite Hv. cbv zeta.
  unfold bind, select_UserAccts_where_email. rewrite Hfilter.
  change (@scalar UserAccts.t []) with (@None UserAccts.t). cbv beta iota.
  unfold add_UserAccts. rewrite Hex. reflexivity.
Qed.

(** X1. A validated registration with an email that no stored user has
    appends one row to [user_accts], with a primary key that no stored user
    has, the submitted email and name and the salted hash of the submitted
    password; it leaves the posts, the comments and the flashed messages as
    they were, logs the new user in and redirects to the listing. *)
Theorem register_new_email :
  forall (env : Env) (req : Request RegisterForm.t) (c : Ctx),
    validate_on_submit req = true ->
    (forall u, In u (user_accts (db c)) ->
               UserAccts.email u <> RegisterForm.email (form req)) ->
    let new_user :=
      {| UserAccts.id := next_id (map UserAccts.id (user_accts (db c)));
         UserAccts.email := RegisterForm.email (form req);
         UserAccts.password :=
           generate_password_hash (RegisterForm.password (form req)) (salt env);
         UserAccts.name := RegisterForm.name (form req) |} in
    register env req c
    = (Returns (redirect ep_get_all_posts),
       with_session
         (with_db c {| user_accts := user_accts (db c) ++ [new_user];
                       blog_posts := blog_posts (db c);
                       comments := comments (db c) |})
         (Some (UserAccts.id new_user))) /\
    ~ In (UserAccts.id new_user) (map UserAccts.id (user_accts (db c))).
Proof.
  intros env req c Hv Hfresh new_user. split.
  - now rewrite (register_fresh_run env req c Hv Hfresh).
  - apply next_id_fresh.
Qed.

(** X2. Registration and login compose: when the hash that
    [generate_password_hash] makes of the submitted password verifies
    against that password, a validated login with the email and password of
    a registration that just succeeded finds the new account, whatever the
    session holds, and ends logged in as the new user with the database
    of the registration. *)
Theorem register_then_login :
  forall (env : Env) (req : Request RegisterForm.t)
         (l_req : Request LoginForm.t) (c : Ctx) (session : option Z),
    validate_on_submit req = true ->
    validate_on_submit l_req = true ->
    (forall u, In u (user_accts (db c)) ->
               UserAccts.email u <> RegisterForm.email (form req)) ->
    LoginForm.email (form l_req) = RegisterForm.email (form req) ->
    LoginForm.password (form l_req) = RegisterForm.password (form req) ->
    check_password_hash
      (generate_password_hash (RegisterForm.password (form req)) (salt env))
      (RegisterForm.password (form req)) = true ->
    login l_req (with_session (snd (register env req c)) session)
    = (Returns (redirect ep_get_all_posts), snd (register env req c)).
Proof.
  intros env req l_req c session Hv Hlv Hfresh Hemail Hpw Hcheck.
  rewrite (register_fresh_run env req c Hv Hfresh). simpl snd.
  unfold login. rewrite Hlv. cbv zeta.
  unfold bind, select_UserAccts_where_email, with_session.
  cbn [db user_accts flashes session_user_id].
  rewrite filter_app, Hemail.
  destruct (email_not_stored _ _ Hfresh) as [-> _]. simpl.
  rewrite String.eqb_refl. simpl. rewrite Hpw, Hcheck. reflexivity.
Qed.

(** X3. The first account is the administrator: a validated registration
    on an empty [user_accts] table ends logged in with identifier 1, and
    in the resulting context the guard runs the wrapped function,
    whatever that function is. *)
Theorem first_account_is_admin :
  forall (env : Env) (req : Request RegisterForm.t) (c : Ctx),
    user_accts (db c) = [] ->
    validate_on_submit req = true ->
    session_user_id (snd (register env req c)) = Some 1 /\
    (forall (Args : Type) (function : Args -> M Response) (args : Args),
        admin_only function args (snd (register env req c))
        = function args (snd (register env req c))).
Proof.
  intros env req c Hempty Hv.
  assert (Hfresh : forall u, In u (user_accts (db c)) ->
                             UserAccts.email u <> RegisterForm.email (form req)).
  { rewrite Hempty. intros u []. }
  rewrite (register_fresh_run env req c Hv Hfresh), Hempty. simpl.
  split; [reflexivity|]. intros Args function args.
  reflexivity.
Qed.

End Signup.

Lemma register_new_email_witness :
  register (werkzeug := cleartext) env0 angela_signup (as_visitor create_all)
  = (Returns (redirect ep_get_all_posts),
     as_angela {| user_accts := [angela]; blog_posts := [];
                  comments := [] |}).
Proof.
  destruct (register_new_email (werkzeug := cleartext) env0 angela_signup
              (as_visitor create_all)) as [Hrun _].
  - reflexivity.
  - simpl. intros u [].
  - exact Hrun.
Defined.

Lemma register_then_login_witness :
  login (werkzeug := cleartext) angela_login
    (with_session
       (snd (register (werkzeug := cleartext) env0 angela_signup
               (as_visitor create_all))) None)
  = (Returns (redirect ep_get_all_posts),
     as_angela {| user_accts := [angela]; blog_posts := [];
                  comments := [] |}).
Proof.
  apply (register_then_login (werkzeug := cleartext) env0 angela_signup
           angela_login (as_visitor create_all) None).
  - reflexivity.
  - reflexivity.
  - simpl. intros u [].
  - reflexivity.
  - reflexivity.
  - reflexivity.
Defined.

Lemma first_account_is_admin_witness :
  session_user_id
    (snd (register (werkzeug := cleartext) env0 angela_signup
            (as_visitor create_all)))
  = Some 1.
Proof.
  destruct (first_account_is_admin (werkzeug := cleartext) env0 angela_signup
              (as_visitor create_all)) as [Hsession _].
  - reflexivity.
  - reflexivity.
  - exact Hsession.
Defined.

(** ** The identifiers of the users *)

Lemma max_ids_from (i : Z) (a n : nat) :
  i < Z.of_nat a ->
  fold_right Z.max i (map Z.of_nat (seq a n))
  = match n with O => i | S m => Z.of_nat (a + m) end.
Proof.
  revert a. induction n as [|n IH]; intros a Hi; simpl; [reflexivity|].
  rewrite IH by lia. destruct n; lia.
Qed.

Lemma next_id_ids_upto (n : nat) : next_id (ids_upto n) = Z.of_nat (S n).
Proof.
  unfold ids_upto. destruct n as [|n]; [reflexivity|].
  simpl seq. simpl map. unfold next_id.
  rewrite max_ids_from by lia. destruct n; lia.
Qed.

Lemma ids_upto_S (n : nat) : ids_upto (S n) = ids_upto n ++ [Z.of_nat (S n)].
Proof. unfold ids_upto. rewrite seq_S, map_app. reflexivity. Qed.

Lemma preserves_ids_add_UserAccts (name email password : string) :
  preserves user_ids_in_sequence (add_UserAccts name email password).
Proof.
  intros c H. unfold add_UserAccts, user_ids_in_sequence in *.
  destruct (existsb _ _); simpl; [exact H|].
  rewrite map_app, length_app, H. simpl. rewrite Nat.add_1_r, ids_upto_S.
  f_equal. now rewrite next_id_ids_upto.
Qed.

Lemma preserves_ids_add_BlogPost (title subtitle body img_url : string)
    (author : Z) (date : string) :
  preserves user_ids_in_sequence
    (add_BlogPost title subtitle body img_url author date).
Proof.
  intros c H. unfold add_BlogPost. destruct (existsb _ _); exact H.
Qed.

Lemma preserves_ids_add_Comment (text : string) (comment_author parent_post : Z) :
  preserves user_ids_in_sequence (add_Comment text comment_author parent_post).
Proof. intros c H. exact H. Qed.

Lemma preserves_ids_update_BlogPost (p : BlogPost.t) :
  preserves user_ids_in_sequence (update_BlogPost p).
Proof.
  intros c H. unfold update_BlogPost. destruct (existsb _ _); exact H.
Qed.

Lemma preserves_ids_delete_BlogPost (p : BlogPost.t) :
  preserves user_ids_in_sequence (delete_BlogPost p).
Proof.
  intros c H. unfold delete_BlogPost. destruct (existsb _ _); exact H.
Qed.

#[local] Hint Resolve preserves_ids_add_UserAccts preserves_ids_add_BlogPost
  preserves_ids_add_Comment preserves_ids_update_BlogPost
  preserves_ids_delete_BlogPost : blog.

Ltac preserve_app q :=
  destruct q; simpl;
  unfold register, login, logout, get_all_posts, show_post, add_new_post,
    edit_post, delete_post, about, contact, admin_only, abort;
  cbv zeta; preserve.

Section UserIdentifiers.

Context {werkzeug : Werkzeug}.

Lemma preserves_ids_app (q : HttpRequest) :
  preserves user_ids_in_sequence (app q).
Proof. preserve_app q. Qed.

(** X4. In every database that the application reaches from the empty
    tables, the users carry the identifiers 1, 2, ..., n in the order of
    their registration; so no two users share an identifier and a user
    with identifier 1 is the one who registered first. *)
Theorem reachable_user_ids :
  forall d : Database,
    reachable d ->
    map UserAccts.id (user_accts d) = ids_upto (List.length (user_accts d)) /\
    NoDup (map UserAccts.id (user_accts d)) /\
    (forall u, In u (user_accts d) -> UserAccts.id u = 1 ->
               hd_error (user_accts d) = Some u).
Proof.
  intros d Hd.
  assert (Hseq : user_ids_in_sequence d).
  { induction Hd as [|d q session fl Hd IH]; [reflexivity|].
    apply (preserves_ids_app q (mkCtx d session fl)). exact IH. }
  unfold user_ids_in_sequence in Hseq.
  assert (Hnd : NoDup (map UserAccts.id (user_accts d))).
  { rewrite Hseq. unfold ids_upto. apply Injective_map_NoDup.
    - intros x y. apply Nat2Z.inj.
    - apply seq_NoDup. }
  split; [exact Hseq | split; [exact Hnd|]].
  intros u Hu H1. destruct (user_accts d) as [|u0 users] eqn:E; [contradiction|].
  simpl in Hseq. injection Hseq as H0 _.
  simpl. f_equal.
  apply (NoDup_map_eq UserAccts.id (u0 :: users)); auto.
  - now left.
  - rewrite H0, H1. reflexivity.
Qed.

End UserIdentifiers.

Lemma reachable_user_ids_witness :
  map UserAccts.id (user_accts after_hello) = [1] /\
  hd_error (user_accts after_hello) = Some angela.
Proof.
  destruct (reachable_user_ids (werkzeug := cleartext) after_hello)
    as (Hseq & _ & Hfirst).
  - unfold after_hello, after_signup.
    apply reachable_request. apply reachable_request.
    apply reachable_create_all.
  - split; [exact Hseq|]. apply Hfirst; [simpl; auto | reflexivity].
Defined.

(** ** Tables that only grow *)

Lemma grows_refl (d : Database) : grows (user_accts d) (comments d) d.
Proof. split; exists []; now rewrite app_nil_r. Qed.

Section Grows.

Variable U : list UserAccts.t.
Variable C : list Comment.t.

Lemma grows_add_UserAccts (name email password : string) :
  preserves (grows U C) (add_UserAccts name email password).
Proof.
  intros c [[lu Hu] Hc]. unfold add_UserAccts.
  destruct (existsb _ _); simpl; [split; eauto|].
  split; [|exact Hc]. eexists. rewrite Hu, <- app_assoc. reflexivity.
Qed.

Lemma grows_add_Comment (text : string) (comment_author parent_post : Z) :
  preserves (grows U C) (add_Comment text comment_author parent_post).
Proof.
  intros c [Hu [lc Hc]]. unfold add_Comment. simpl.
  split; [exact Hu|]. eexists. rewrite Hc, <- app_assoc. reflexivity.
Qed.

Lemma grows_add_BlogPost (title subtitle body img_url : string)
    (author : Z) (date : string) :
  preserves (grows U C) (add_BlogPost title subtitle body img_url author date).
Proof.
  intros c H. unfold add_BlogPost. destruct (existsb _ _); exact H.
Qed.

Lemma grows_update_BlogPost (p : BlogPost.t) :
  preserves (grows U C) (update_BlogPost p).
Proof.
  intros c H. unfold update_BlogPost. destruct (existsb _ _); exact H.
Qed.

Lemma grows_delete_BlogPost (p : BlogPost.t) :
  preserves (grows U C) (delete_BlogPost p).
Proof.
  intros c H. unfold delete_BlogPost. destruct (existsb _ _); exact H.
Qed.

End Grows.

#[local] Hint Resolve grows_add_UserAccts grows_add_Comment
  grows_add_BlogPost grows_update_BlogPost grows_delete_BlogPost : blog.

(** ** Who can change the posts *)

Lemma admin_only_other_session {Args : Type} (function : Args -> M Response)
    (args : Args) (c : Ctx) :
  session_user_id c <> Some 1 ->
  snd (admin_only function args c) = c.
Proof.
  intros Hs. unfold admin_only, bind, current_user_id, bind, current_user.
  destruct (session_user_id c) as [i|] eqn:Ei; [|reflexivity].
  unfold bind, load_user, get_or_404.
  destruct (find _ _) as [u|] eqn:Ef; [|reflexivity]. simpl.
  apply find_pk_Some in Ef. destruct Ef as [_ Hid].
  destruct (Z.eqb_spec (UserAccts.id u) 1) as [E|E]; [|reflexivity].
  exfalso. apply Hs. congruence.
Qed.

Section Posts.

Variable P : list BlogPost.t.

Lemma posts_add_UserAccts (name email password : string) :
  preserves (posts_are P) (add_UserAccts name email password).
Proof.
  intros c H. unfold add_UserAccts. destruct (existsb _ _); exact H.
Qed.

Lemma posts_add_Comment (text : string) (comment_author parent_post : Z) :
  preserves (posts_are P) (add_Comment text comment_author parent_post).
Proof. intros c H. exact H. Qed.

End Posts.

#[local] Hint Resolve posts_add_UserAccts posts_add_Comment : blog.

Section Writers.

Context {werkzeug : Werkzeug}.

(** X5. No request deletes or modifies a user or a comment: after any
    request, with any session, the tables [user_accts] and [comments]
    are the tables before the request followed by the rows added. *)
Theorem users_and_comments_only_grow :
  forall (q : HttpRequest) (c : Ctx),
    (exists new_users,
        user_accts (db (snd (app q c))) = user_accts (db c) ++ new_users) /\
    (exists new_comments,
        comments (db (snd (app q c))) = comments (db c) ++ new_comments).
Proof.
  intros q c.
  assert (H : preserves (grows (user_accts (db c)) (comments (db c))) (app q)).
  { generalize (user_accts (db c)) (comments (db c)). intros U C.
    preserve_app q. }
  exact (H c (grows_refl (db c))).
Qed.

(** X6. The posts change only for the administrator's session or
    through [/delete]: when a request leaves [blog_posts] different from
    what it was, either the session holds the identifier 1 or the request
    is a delete-post request. *)
Theorem posts_change_only_for_admin_or_delete :
  forall (q : HttpRequest) (c : Ctx),
    blog_posts (db (snd (app q c))) <> blog_posts (db c) ->
    session_user_id c = Some 1 \/ exists post_id, q = DeletePost post_id.
Proof.
  intros q c Hchange.
  assert (Hkeep : forall (m : M Response),
             preserves (posts_are (blog_posts (db c))) m ->
             blog_posts (db (snd (m c))) = blog_posts (db c)).
  { intros m Hm. apply (Hm c). reflexivity. }
  assert (Hsession : {session_user_id c = Some 1} + {session_user_id c <> Some 1}).
  { destruct (session_user_id c) as [i|]; [|right; discriminate].
    destruct (Z.eq_dec i 1) as [->|Hi]; [now left | right; congruence]. }
  destruct Hsession as [Hs|Hs]; [now left|].
  destruct q as [env r|r| | |pid r|env r|pid r|pid| | ]; cbn [app] in Hchange;
    try (exfalso; apply Hchange; apply Hkeep;
         unfold register, login, logout, get_all_posts, show_post, about,
           contact; cbv zeta; preserve; fail).
  - exfalso. apply Hchange. unfold add_new_post.
    now rewrite admin_only_other_session.
  - exfalso. apply Hchange. unfold edit_post.
    now rewrite admin_only_other_session.
  - right. now exists pid.
Qed.

End Writers.

Lemma posts_change_only_for_admin_or_delete_witness :
  blog_posts (db (snd (app (werkzeug := cleartext) (DeletePost 1)
                         (as_bob one_post))))
  <> blog_posts (db (as_bob one_post)) /\
  (session_user_id (as_bob one_post) = Some 1 \/
   exists post_id, DeletePost 1 = DeletePost post_id).
Proof.
  assert (Hchange : blog_posts (db (snd (app (werkzeug := cleartext)
                                           (DeletePost 1) (as_bob one_post))))
                    <> blog_posts (db (as_bob one_post))).
  { simpl. discriminate. }
  split; [exact Hchange|].
  exact (posts_change_only_for_admin_or_delete (werkzeug := cleartext)
           (DeletePost 1) (as_bob one_post) Hchange).
Defined.

(** ** Missing rows *)

Lemma find_pk_None {Row : Type} (pk : Row -> Z) (i : Z) (l : list Row) :
  (forall r, In r l -> pk r <> i) -> find (fun x => pk x =? i) l = None.
Proof.
  intros H. destruct (find _ l) as [r|] eqn:E; [|reflexivity].
  apply find_pk_Some in E. destruct E as [Hin Hpk]. now destruct (H r Hin).
Qed.

(** X7. A post identifier in the range of SQLite integers that no stored
    post has: [show_post] and [delete_post] abort with 404 for every
    session and every form, before the session is looked at, and
    [edit_post] does so for the administrator; the context is left as it
    was. *)
Theorem missing_post_is_404 :
  forall (post_id : Z) (com_form : Request CommentForm.t)
         (edit_form : Request CreatePostForm.t) (c : Ctx),
    sqlite_integer post_id ->
    (forall p, In p (blog_posts (db c)) -> BlogPost.id p <> post_id) ->
    show_post post_id com_form c = (Raises (HTTPException 404), c) /\
    delete_post post_id c = (Raises (HTTPException 404), c) /\
    (forall u, current_user c = (Returns (Account u), c) ->
               UserAccts.id u = 1 ->
               edit_post post_id edit_form c = (Raises (HTTPException 404), c)).
Proof.
  intros post_id com_form edit_form c _ Hnone.
  apply (find_pk_None BlogPost.id) in Hnone.
  repeat split.
  - unfold show_post, bind, get_or_404. now rewrite Hnone.
  - unfold delete_post, bind, get_or_404. now rewrite Hnone.
  - intros u Hu H1. unfold edit_post.
    rewrite (admin_only_admin _ post_id c u Hu H1).
    unfold bind, get_or_404. now rewrite Hnone.
Qed.

Lemma missing_post_is_404_witness :
  show_post 7 nice_comment (as_visitor one_post)
  = (Raises (HTTPException 404), as_visitor one_post) /\
  delete_post 7 (as_angela one_post)
  = (Raises (HTTPException 404), as_angela one_post) /\
  edit_post 7 hello_request (as_angela one_post)
  = (Raises (HTTPException 404), as_angela one_post).
Proof.
  assert (Hrange : sqlite_integer 7).
  { split; [apply Z.leb_le | apply Z.ltb_lt]; reflexivity. }
  assert (Hnone : forall p, In p (blog_posts one_post) -> BlogPost.id p <> 7).
  { simpl. intros p [<-|[]]. discriminate. }
  split; [|split].
  - apply (missing_post_is_404 7 nice_comment hello_request
             (as_visitor one_post) Hrange Hnone).
  - apply (missing_post_is_404 7 nice_comment hello_request
             (as_angela one_post) Hrange Hnone).
  - destruct (missing_post_is_404 7 nice_comment hello_request
                (as_angela one_post) Hrange Hnone) as (_ & _ & Hedit).
    apply (Hedit angela); reflexivity.
Defined.

(** X8. A session whose user identifier is not in [user_accts]: loading
    the current user aborts with 404, so the guarded views answer 404,
    not 403, and a validated comment on a stored post is answered 404
    too; nothing is written. *)
Theorem unknown_session_user_is_404 :
  forall (env : Env) (post_id i : Z) (com_form : Request CommentForm.t)
         (post_form : Request CreatePostForm.t) (c : Ctx),
    session_user_id c = Some i ->
    (forall u, In u (user_accts (db c)) -> UserAccts.id u <> i) ->
    current_user c = (Raises (HTTPException 404), c) /\
    add_new_post env post_form c = (Raises (HTTPException 404), c) /\
    edit_post post_id post_form c = (Raises (HTTPException 404), c) /\
    (forall p, In p (blog_posts (db c)) -> BlogPost.id p = post_id ->
               validate_on_submit com_form = true ->
               show_post post_id com_form c = (Raises (HTTPException 404), c)).
Proof.
  intros env post_id i com_form post_form c Hs Hnone.
  apply (find_pk_None UserAccts.id) in Hnone.
  assert (Hcur : current_user c = (Raises (HTTPException 404), c)).
  { unfold current_user, bind, load_user, get_or_404. now rewrite Hs, Hnone. }
  repeat split.
  - exact Hcur.
  - unfold add_new_post, admin_only, current_user_id, bind. now rewrite Hcur.
  - unfold edit_post, admin_only, current_user_id, bind. now rewrite Hcur.
  - intros p Hin Hid Hv.
    destruct (find_pk_In BlogPost.id post_id _ p Hin Hid) as [p' Hfind].
    unfold show_post, bind, get_or_404. now rewrite Hfind, Hv, Hcur.
Qed.

Lemma unknown_session_user_is_404_witness :
  add_new_post env0 hello_request (mkCtx one_post (Some 9) [])
  = (Raises (HTTPException 404), mkCtx one_post (Some 9) []) /\
  show_post 1 nice_comment (mkCtx one_post (Some 9) [])
  = (Raises (HTTPException 404), mkCtx one_post (Some 9) []).
Proof.
  destruct (unknown_session_user_is_404 env0 1 9 nice_comment hello_request
              (mkCtx one_post (Some 9) [])) as (_ & Hadd & _ & Hshow).
  - reflexivity.
  - simpl. intros u [<-|[<-|[]]]; discriminate.
  - split; [exact Hadd|]. apply (Hshow hello); [simpl; auto | reflexivity..].
Defined.

(** ** Comments by logged-in users *)

(** X9. A validated comment by a logged-in user on a stored post appends
    one row to [comments], with a primary key that no stored comment has,
    that user as author, that post as parent and the submitted text; users,
    posts, session and flashed messages are as before and the post page is
    rendered. *)
Theorem show_post_comment_authenticated :
  forall (post_id : Z) (req : Request CommentForm.t) (c : Ctx)
         (u : UserAccts.t) (p : BlogPost.t),
    current_user c = (Returns (Account u), c) ->
    validate_on_submit req = true ->
    NoDup (map BlogPost.id (blog_posts (db c))) ->
    In p (blog_posts (db c)) ->
    BlogPost.id p = post_id ->
    let new_comment :=
      {| Comment.id := next_id (map Comment.id (comments (db c)));
         Comment.author_id := UserAccts.id u;
         Comment.post_id := post_id;
         Comment.text := CommentForm.comment_text (form req) |} in
    show_post post_id req c
    = (Returns (render_template "post.html" [p]),
       with_db c {| user_accts := user_accts (db c);
                    blog_posts := blog_posts (db c);
                    comments := comments (db c) ++ [new_comment] |}) /\
    ~ In (Comment.id new_comment) (map Comment.id (comments (db c))).
Proof.
  intros post_id req c u p Hu Hv Hkey Hin Hid new_comment. split.
  - destruct (find_pk_In BlogPost.id post_id _ p Hin Hid) as [p' Hfind].
    assert (p' = p) as ->.
    { apply find_pk_Some in Hfind. destruct Hfind as [Hin' Hid'].
      apply (NoDup_map_eq BlogPost.id (blog_posts (db c))); auto. congruence. }
    unfold show_post, bind, get_or_404. rewrite Hfind. cbv beta iota.
    rewrite Hv, Hu. cbn [is_authenticated negb]. cbv beta iota.
    rewrite (current_user_id_Account c u Hu). cbv beta iota.
    unfold add_Comment, ret. rewrite Hid. reflexivity.
  - apply next_id_fresh.
Qed.

Lemma show_post_comment_authenticated_witness :
  show_post 1 nice_comment (as_bob one_post)
  = (Returns (render_template "post.html" [hello]), as_bob with_comment).
Proof.
  destruct (show_post_comment_authenticated 1 nice_comment (as_bob one_post)
              bob hello) as [Hrun _].
  - reflexivity.
  - reflexivity.
  - simpl. repeat constructor. simpl. tauto.
  - simpl. auto.
  - reflexivity.
  - exact Hrun.
Defined.

(** ** Requests that only read *)

Lemma inert_ret {A : Type} (a : A) : inert (ret a).
Proof. intros c. reflexivity. Qed.

Lemma inert_raise {A : Type} (e : Exception) : inert (@raise A e).
Proof. intros c. reflexivity. Qed.

Lemma inert_bind {A B : Type} (m : M A) (k : A -> M B) :
  inert m -> (forall a, inert (k a)) -> inert (bind m k).
Proof.
  intros Hm Hk c. unfold bind. specialize (Hm c).
  destruct (m c) as [[a|e] c']; simpl in *; subst; [apply Hk | reflexivity].
Qed.

Lemma inert_get_or_404 {Row : Type} (table : Database -> list Row)
    (pk : Row -> Z) (i : Z) :
  inert (get_or_404 table pk i).
Proof. intros c. unfold get_or_404. now destruct (find _ _). Qed.

Lemma inert_current_user : inert current_user.
Proof.
  intros c. unfold current_user, load_user, bind, ret, get_or_404.
  destruct (session_user_id c); [|reflexivity]. now destruct (find _ _).
Qed.

Lemma inert_current_user_id : inert current_user_id.
Proof.
  unfold current_user_id. apply inert_bind; [apply inert_current_user|].
  intros [|a]; [apply inert_raise | apply inert_ret].
Qed.

Lemma inert_select_BlogPost : inert select_BlogPost.
Proof. intros c. reflexivity. Qed.

Lemma not_submitted {Form : Type} (r : Request Form) :
  negb (is_submitted r) = true -> validate_on_submit r = false.
Proof.
  unfold validate_on_submit. now destruct (is_submitted r).
Qed.

#[local] Hint Resolve inert_get_or_404 inert_current_user
  inert_current_user_id inert_select_BlogPost : blog.

Ltac inert_view Hv :=
  repeat first
    [ solve [auto with blog]
    | apply inert_ret
    | apply inert_raise
    | apply inert_bind; [|intros ?]
    | rewrite Hv
    | progress cbv beta iota
    | match goal with
      | |- inert (if ?b then _ else _) => destruct b
      end ].

Section ReadOnly.

Context {werkzeug : Werkzeug}.

(** X10. A GET request to any route but [/logout] and [/delete/<id>]
    leaves the database, the session and the flashed messages exactly as
    they were, whoever sends it and whether it is answered with a page or
    with an error. *)
Theorem get_requests_change_nothing :
  forall (q : HttpRequest) (c : Ctx),
    safe_method q = true -> snd (app q c) = c.
Proof.
  intros q c Hsafe. revert c. change (inert (app q)).
  destruct q as [env r|r| | |pid r|env r|pid r|pid| | ]; simpl in Hsafe;
    try discriminate; try apply not_submitted in Hsafe; cbn [app].
  - unfold register. now rewrite Hsafe.
  - unfold login. now rewrite Hsafe.
  - unfold get_all_posts. inert_view Hsafe.
  - unfold show_post. inert_view Hsafe.
  - unfold add_new_post, admin_only, abort. inert_view Hsafe.
  - unfold edit_post, admin_only, abort. inert_view Hsafe.
  - unfold about. apply inert_ret.
  - unfold contact. apply inert_ret.
Qed.

End ReadOnly.

Lemma get_requests_change_nothing_witness :
  snd (app (werkzeug := cleartext)
         (EditPost 1 (mkRequest GET hello_form true)) (as_angela one_post))
  = as_angela one_post.
Proof.
  apply (get_requests_change_nothing (werkzeug := cleartext)).
  reflexivity.
Defined.

(** ** Logging out *)

(** X11. [logout] from a context without a logged-in user, or with the
    session of a stored user, is answered with a redirect to the listing;
    it clears the session and nothing else, the current user afterwards
    is the anonymous user and a second logout changes nothing more.  With
    a session whose user identifier is not in [user_accts], loading the
    user aborts the request with 404 and the session is kept. *)
Theorem logout_clears_session :
  forall c : Ctx,
    (session_user_id c = None \/
     (exists u, In u (user_accts (db c)) /\
                session_user_id c = Some (UserAccts.id u)) ->
     logout c
     = (Returns (redirect ep_get_all_posts),
        {| db := db c; session_user_id := None; flashes := flashes c |}) /\
     logout (snd (logout c)) = logout c /\
     current_user (snd (logout c))
     = (Returns AnonymousUserMixin,
        {| db := db c; session_user_id := None; flashes := flashes c |})) /\
    (forall i, session_user_id c = Some i ->
               (forall u, In u (user_accts (db c)) -> UserAccts.id u <> i) ->
               logout c = (Raises (HTTPException 404), c)).
Proof.
  intros c. split.
  - intros Hsession.
    assert (Hrun : logout c
                   = (Returns (redirect ep_get_all_posts),
                      {| db := db c; session_user_id := None;
                         flashes := flashes c |})).
    { unfold logout, logout_user, bind, current_user.
      destruct Hsession as [->|(u & Hin & ->)]; [reflexivity|].
      unfold bind, load_user, get_or_404.
      destruct (find_pk_In UserAccts.id (UserAccts.id u) _ u Hin eq_refl)
        as [u' ->].
      reflexivity. }
    rewrite Hrun. repeat split.
  - intros i Hs Hnone. apply (find_pk_None UserAccts.id) in Hnone.
    unfold logout, logout_user, bind, current_user. rewrite Hs.
    unfold bind, load_user, get_or_404. now rewrite Hnone.
Qed.

Lemma logout_clears_session_witness :
  logout (as_bob one_post)
  = (Returns (redirect ep_get_all_posts), mkCtx one_post None []) /\
  logout (mkCtx one_post (Some 9) [])
  = (Raises (HTTPException 404), mkCtx one_post (Some 9) []).
Proof.
  split.
  - destruct (logout_clears_session (as_bob one_post)) as [Hknown _].
    apply Hknown. right. exists bob. simpl. auto.
  - destruct (logout_clears_session (mkCtx one_post (Some 9) []))
      as [_ Hunknown].
    apply (Hunknown 9); [reflexivity|].
    simpl. intros u [<-|[<-|[]]]; discriminate.
Defined.

(** ** Foreign keys *)

Lemma assign_rows (p : BlogPost.t) (l : list BlogPost.t) (q : BlogPost.t) :
  In q (map (assign p) l) -> q = p \/ In q l.
Proof.
  intros H. apply in_map_iff in H. destruct H as (r & Hr & Hin).
  unfold assign in Hr. destruct (BlogPost.id r =? BlogPost.id p); subst; auto.
Qed.

Lemma foreign_keys_add_UserAccts (d : Database) (u : UserAccts.t) :
  foreign_keys d ->
  foreign_keys {| user_accts := user_accts d ++ [u];
                  blog_posts := blog_posts d;
                  comments := comments d |}.
Proof.
  intros [Hp Hk]. split; simpl.
  - intros p Hin. rewrite map_app. apply in_or_app. left. now apply Hp.
  - intros k Hin. destruct (Hk k Hin) as [Ha Hpost]. split; [|exact Hpost].
    rewrite map_app. apply in_or_app. now left.
Qed.

Lemma foreign_keys_add_BlogPost (d : Database) (p : BlogPost.t) :
  foreign_keys d ->
  In (BlogPost.author_id p) (map UserAccts.id (user_accts d)) ->
  foreign_keys {| user_accts := user_accts d;
                  blog_posts := blog_posts d ++ [p];
                  comments := comments d |}.
Proof.
  intros [Hp Hk] Hauthor. split; simpl.
  - intros q Hin. apply in_app_or in Hin. destruct Hin as [Hin|[<-|[]]]; auto.
  - intros k Hin. destruct (Hk k Hin) as [Ha Hpost]. split; [exact Ha|].
    rewrite map_app. apply in_or_app. now left.
Qed.

Lemma foreign_keys_add_Comment (d : Database) (k : Comment.t) :
  foreign_keys d ->
  In (Comment.author_id k) (map UserAccts.id (user_accts d)) ->
  In (Comment.post_id k) (map BlogPost.id (blog_posts d)) ->
  foreign_keys {| user_accts := user_accts d;
                  blog_posts := blog_posts d;
                  comments := comments d ++ [k] |}.
Proof.
  intros [Hp Hk] Hauthor Hpost. split; simpl; [exact Hp|].
  intros k' Hin. apply in_app_or in Hin. destruct Hin as [Hin|[<-|[]]]; auto.
Qed.

Lemma foreign_keys_update_BlogPost (d : Database) (p : BlogPost.t) :
  foreign_keys d ->
  In (BlogPost.author_id p) (map UserAccts.id (user_accts d)) ->
  foreign_keys {| user_accts := user_accts d;
                  blog_posts := map (assign p) (blog_posts d);
                  comments := comments d |}.
Proof.
  intros [Hp Hk] Hauthor. split; simpl.
  - intros q Hin. apply assign_rows in Hin. destruct Hin as [->|Hin]; auto.
  - intros k Hin. rewrite assign_keeps_id. now apply Hk.
Qed.

Lemma foreign_keys_delete_BlogPost (d : Database) (p : BlogPost.t) :
  foreign_keys d ->
  existsb (fun k => Comment.post_id k =? BlogPost.id p) (comments d) = false ->
  foreign_keys {| user_accts := user_accts d;
                  blog_posts :=
                    filter (fun q => negb (BlogPost.id q =? BlogPost.id p))
                      (blog_posts d);
                  comments := comments d |}.
Proof.
  intros [Hp Hk] Hnone. split; simpl.
  - intros q Hin. apply filter_In in Hin. now apply Hp.
  - intros k Hin. destruct (Hk k Hin) as [Ha Hpost]. split; [exact Ha|].
    apply in_map_iff in Hpost. destruct Hpost as (q & Hq & Hqin).
    apply in_map_iff. exists q. split; [exact Hq|].
    apply filter_In. split; [exact Hqin|].
    apply negb_true_iff, Z.eqb_neq. intros E.
    assert (Hex : existsb (fun k => Comment.post_id k =? BlogPost.id p)
                    (comments d) = true).
    { apply existsb_exists. exists k. split; [exact Hin|].
      apply Z.eqb_eq. congruence. }
    congruence.
Qed.

(** What [current_user_id] returns is the identifier of a stored user. *)
Lemma current_user_id_stored (c : Ctx) (i : Z) (c' : Ctx) :
  current_user_id c = (Returns i, c') ->
  c' = c /\ In i (map UserAccts.id (user_accts (db c))).
Proof.
  unfold current_user_id, bind, current_user.
  destruct (session_user_id c) as [j|]; [|discriminate].
  unfold bind, load_user, get_or_404.
  destruct (find _ _) as [u|] eqn:E; [|discriminate]. simpl.
  intros H. injection H as <- <-. apply find_pk_Some in E.
  split; [reflexivity|]. apply in_map. tauto.
Qed.

Lemma get_or_404_stored {Row : Type} (table : Database -> list Row)
    (pk : Row -> Z) (i : Z) (c : Ctx) (r : Row) (c' : Ctx) :
  get_or_404 table pk i c = (Returns r, c') ->
  c' = c /\ In r (table (db c)) /\ pk r = i.
Proof.
  unfold get_or_404. destruct (find _ _) as [x|] eqn:E; [|discriminate].
  intros H. injection H as <- <-. apply find_pk_Some in E. tauto.
Qed.

Lemma foreign_keys_show_post (post_id : Z) (req : Request CommentForm.t) :
  preserves foreign_keys (show_post post_id req).
Proof.
  intros c H. unfold show_post. unfold bind at 1.
  destruct (get_or_404 _ _ _ c) as [[p|e] c1] eqn:Ep.
  2:{ pose proof (inert_get_or_404 blog_posts BlogPost.id post_id c) as Hg.
      rewrite Ep in Hg. simpl in Hg. now subst. }
  apply get_or_404_stored in Ep. destruct Ep as (-> & Hp & Hid).
  destruct (validate_on_submit req); [|exact H].
  unfold bind at 1. pose proof (inert_current_user c) as Hcu.
  destruct (current_user c) as [[[|u]|e] c1]; simpl in Hcu; subst c1; simpl;
    try exact H.
  unfold bind at 1.
  destruct (current_user_id c) as [[i|e] c1] eqn:Ei.
  2:{ pose proof (inert_current_user_id c) as Hi. rewrite Ei in Hi.
      simpl in Hi. now subst. }
  apply current_user_id_stored in Ei. destruct Ei as [-> Hi].
  unfold bind, add_Comment, ret. simpl.
  apply foreign_keys_add_Comment; simpl; auto. now apply in_map.
Qed.

Lemma foreign_keys_add_new_post (env : Env) (req : Request CreatePostForm.t) :
  preserves foreign_keys (add_new_post env req).
Proof.
  intros c H. unfold add_new_post, admin_only. unfold bind at 1.
  destruct (current_user_id c) as [[i|e] c1] eqn:Ei.
  2:{ pose proof (inert_current_user_id c) as Hi. rewrite Ei in Hi.
      simpl in Hi. now subst. }
  apply current_user_id_stored in Ei. destruct Ei as [-> Hi].
  destruct (negb (i =? 1)); [exact H|].
  destruct (validate_on_submit req); [|exact H].
  unfold bind at 1.
  destruct (current_user_id c) as [[j|e] c1] eqn:Ej.
  2:{ pose proof (inert_current_user_id c) as Hj. rewrite Ej in Hj.
      simpl in Hj. now subst. }
  apply current_user_id_stored in Ej. destruct Ej as [-> Hj].
  unfold bind, add_BlogPost, ret.
  destruct (existsb _ _); simpl; [exact H|].
  now apply foreign_keys_add_BlogPost.
Qed.

Lemma foreign_keys_edit_post (post_id : Z) (req : Request CreatePostForm.t) :
  preserves foreign_keys (edit_post post_id req).
Proof.
  intros c H. unfold edit_post, admin_only. unfold bind at 1.
  destruct (current_user_id c) as [[i|e] c1] eqn:Ei.
  2:{ pose proof (inert_current_user_id c) as Hi. rewrite Ei in Hi.
      simpl in Hi. now subst. }
  apply current_user_id_stored in Ei. destruct Ei as [-> Hi].
  destruct (negb (i =? 1)); [exact H|].
  unfold bind at 1.
  destruct (get_or_404 _ _ _ c) as [[p|e] c1] eqn:Ep.
  2:{ pose proof (inert_get_or_404 blog_posts BlogPost.id post_id c) as Hg.
      rewrite Ep in Hg. simpl in Hg. now subst. }
  apply get_or_404_stored in Ep. destruct Ep as (-> & Hp & Hid).
  destruct (validate_on_submit req); [|exact H].
  unfold bind at 1.
  destruct (current_user_id c) as [[j|e] c1] eqn:Ej.
  2:{ pose proof (inert_current_user_id c) as Hj. rewrite Ej in Hj.
      simpl in Hj. now subst. }
  apply current_user_id_stored in Ej. destruct Ej as [-> Hj].
  unfold bind, update_BlogPost, ret.
  destruct (existsb _ _); simpl; [exact H|].
  now apply foreign_keys_update_BlogPost.
Qed.

Lemma foreign_keys_delete_post (post_id : Z) :
  preserves foreign_keys (delete_post post_id).
Proof.
  intros c H. unfold delete_post. unfold bind at 1.
  destruct (get_or_404 _ _ _ c) as [[p|e] c1] eqn:Ep.
  2:{ pose proof (inert_get_or_404 blog_posts BlogPost.id post_id c) as Hg.
      rewrite Ep in Hg. simpl in Hg. now subst. }
  apply get_or_404_stored in Ep. destruct Ep as (-> & Hp & Hid).
  unfold bind, delete_BlogPost, ret.
  destruct (existsb _ _) eqn:Ex; simpl; [exact H|].
  now apply foreign_keys_delete_BlogPost.
Qed.

Section ForeignKeys.

Context {werkzeug : Werkzeug}.

Lemma foreign_keys_register (env : Env) (req : Request RegisterForm.t) :
  preserves foreign_keys (register env req).
Proof.
  intros c H. unfold register. destruct (validate_on_submit req); [|exact H].
  cbv zeta. unfold bind, select_UserAccts_where_email.
  destruct (scalar _); [exact H|]. unfold add_UserAccts.
  destruct (existsb _ _); simpl; [exact H|].
  now apply foreign_keys_add_UserAccts.
Qed.

Lemma foreign_keys_login (req : Request LoginForm.t) :
  preserves foreign_keys (login req).
Proof.
  intros c H. unfold login. destruct (validate_on_submit req); [|exact H].
  cbv zeta. unfold bind, select_UserAccts_where_email.
  destruct (scalar _); [|exact H]. destruct (negb _); exact H.
Qed.

(** X12. In every database that the application reaches from the empty
    tables, every foreign key refers to a stored row: the author of each
    post and of each comment is a stored user, and the post of each
    comment is a stored post. *)
Theorem reachable_foreign_keys :
  forall d : Database,
    reachable d ->
    (forall p, In p (blog_posts d) ->
               exists u, In u (user_accts d) /\
                         UserAccts.id u = BlogPost.author_id p) /\
    (forall k, In k (comments d) ->
               (exists u, In u (user_accts d) /\
                          UserAccts.id u = Comment.author_id k) /\
               (exists p, In p (blog_posts d) /\
                          BlogPost.id p = Comment.post_id k)).
Proof.
  intros d Hd.
  assert (H : foreign_keys d).
  { induction Hd as [|d q session fl Hd IH].
    - split; intros x [].
    - generalize (mkCtx d session fl) (IH : foreign_keys (db (mkCtx d session fl))).
      clear. intros c H.
      destruct q; cbn [app].
      + now apply foreign_keys_register.
      + now apply foreign_keys_login.
      + revert c H. change (preserves foreign_keys logout).
        unfold logout. preserve.
      + exact H.
      + now apply foreign_keys_show_post.
      + now apply foreign_keys_add_new_post.
      + now apply foreign_keys_edit_post.
      + now apply foreign_keys_delete_post.
      + exact H.
      + exact H. }
  destruct H as [Hp Hk]. split.
  - intros p Hin. apply Hp, in_map_iff in Hin.
    destruct Hin as (u & Hu & Hin). now exists u.
  - intros k Hin. destruct (Hk k Hin) as [Ha Hpost].
    apply in_map_iff in Ha, Hpost.
    destruct Ha as (u & Hu & Huin). destruct Hpost as (p & Hpid & Hpin).
    split; [now exists u | now exists p].
Qed.

End ForeignKeys.

Lemma reachable_foreign_keys_witness :
  exists u, In u (user_accts after_hello) /\ UserAccts.id u = 1.
Proof.
  destruct (reachable_foreign_keys (werkzeug := cleartext) after_hello)
    as [Hposts _].
  - unfold after_hello, after_signup.
    apply reachable_request. apply reachable_request.
    apply reachable_create_all.
  - apply (Hposts (BlogPost.mk 1 1 "Hello" "Again" "March 05, 2024" "<p>Hi!</p>"
                     "https://example.com/c.png")).
    simpl. auto.
Defined.

Lemma delete_post_with_comment_witness :
  delete_post 1 (as_angela two_posts)
  = (Raises (IntegrityError "NOT NULL constraint failed: comments.post_id"),
     as_angela two_posts).
Proof.
  apply (delete_post_with_comment 1 (as_angela two_posts) hello nice).
  - simpl. auto.
  - reflexivity.
  - simpl. auto.
  - reflexivity.
Defined.

Lemma delete_post_without_comment_witness :
  delete_post 2 (as_visitor two_posts)
  = (Returns (redirect ep_get_all_posts), as_visitor with_comment).
Proof.
  apply (delete_post_without_comment 2 (as_visitor two_posts) cactus).
  - simpl. auto.
  - reflexivity.
  - simpl. intros k [<-|[]]. discriminate.
Defined.

(** ** Writing a post and reading it back *)

Lemma admin_only_returns {Args : Type} (function : Args -> M Response)
    (args : Args) (c : Ctx) (r : Response) (c' : Ctx) :
  admin_only function args c = (Returns r, c') ->
  current_user_id c = (Returns 1, c) /\ function args c = (Returns r, c').
Proof.
  unfold admin_only, bind.
  destruct (current_user_id c) as [[i|e] c1] eqn:Ei; [|discriminate].
  apply current_user_id_stored in Ei as Hc. destruct Hc as [-> _].
  destruct (Z.eqb_spec i 1) as [->|Hi]; simpl; [auto | discriminate].
Qed.

Lemma find_last_row {Row : Type} (pk : Row -> Z) (rows : list Row) (r : Row) :
  ~ In (pk r) (map pk rows) ->
  find (fun x => pk x =? pk r) (rows ++ [r]) = Some r.
Proof.
  induction rows as [|x rows IH]; simpl; intros H.
  - now rewrite Z.eqb_refl.
  - destruct (Z.eqb_spec (pk x) (pk r)) as [E|E]; [tauto|]. apply IH. tauto.
Qed.

Lemma find_assigned (p : BlogPost.t) (l : list BlogPost.t) (q : BlogPost.t) :
  find (fun x => BlogPost.id x =? BlogPost.id p) l = Some q ->
  find (fun x => BlogPost.id x =? BlogPost.id p) (map (assign p) l) = Some p.
Proof.
  induction l as [|x l IH]; simpl; [discriminate|].
  assert (Hx : assign p x
               = if BlogPost.id x =? BlogPost.id p then p else x) by reflexivity.
  destruct (BlogPost.id x =? BlogPost.id p) eqn:E; rewrite Hx.
  - now rewrite Z.eqb_refl.
  - rewrite E. exact IH.
Qed.

Lemma find_deleted (i : Z) (l : list BlogPost.t) :
  find (fun x => BlogPost.id x =? i)
    (filter (fun q => negb (BlogPost.id q =? i)) l) = None.
Proof.
  apply find_pk_None. intros r Hin. apply filter_In in Hin.
  destruct Hin as [_ Hne]. now apply negb_true_iff, Z.eqb_neq in Hne.
Qed.

(** X15. When [add_new_post] returns for a validated submission, the
    listing rendered next shows the posts that were there, in their
    order, followed by the new post, and the page of the new post's
    identifier shows the new post: author 1, the submitted fields and
    today's date. *)
Theorem new_post_is_listed_and_shown :
  forall (env : Env) (req : Request CreatePostForm.t)
         (view : Request CommentForm.t) (c c' : Ctx) (r : Response),
    validate_on_submit req = true ->
    validate_on_submit view = false ->
    add_new_post env req c = (Returns r, c') ->
    let new_post :=
      {| BlogPost.id := next_id (map BlogPost.id (blog_posts (db c)));
         BlogPost.author_id := 1;
         BlogPost.title := CreatePostForm.title (form req);
         BlogPost.subtitle := CreatePostForm.subtitle (form req);
         BlogPost.date := strftime_B_d_Y (today env);
         BlogPost.body := CreatePostForm.body (form req);
         BlogPost.img_url := CreatePostForm.img_url (form req) |} in
    get_all_posts c'
    = (Returns (render_template "index.html" (blog_posts (db c) ++ [new_post])),
       c') /\
    show_post (BlogPost.id new_post) view c'
    = (Returns (render_template "post.html" [new_post]), c').
Proof.
  intros env req view c c' r Hv Hview Hrun new_post.
  unfold add_new_post in Hrun. apply admin_only_returns in Hrun.
  destruct Hrun as [Hadmin Hrun]. rewrite Hv in Hrun.
  unfold bind in Hrun. rewrite Hadmin in Hrun. unfold add_BlogPost in Hrun.
  destruct (existsb _ _); [discriminate|]. injection Hrun as _ <-.
  fold new_post. split; [reflexivity|].
  unfold show_post, bind, get_or_404. cbn [db with_db blog_posts].
  rewrite (find_last_row BlogPost.id (blog_posts (db c)) new_post)
    by apply next_id_fresh.
  now rewrite Hview.
Qed.

Lemma new_post_is_listed_and_shown_witness :
  show_post 2 view_page
    (snd (add_new_post (mkEnv (mkdate 2024 March 6) "abc")
            (mkRequest POST cactus_form true) (as_angela one_post)))
  = (Returns (render_template "post.html" [cactus]),
     as_angela {| user_accts := [angela; bob];
                  blog_posts := [hello; cactus];
                  comments := [] |}).
Proof.
  eapply (new_post_is_listed_and_shown (mkEnv (mkdate 2024 March 6) "abc")
            (mkRequest POST cactus_form true) view_page (as_angela one_post)).
  - reflexivity.
  - reflexivity.
  - reflexivity.
Defined.

(** X16. When [edit_post] returns for a validated submission, the page of
    that post shows, under the same identifier, the submitted title,
    subtitle, image and body, author 1 and the date the post had. *)
Theorem edited_post_is_shown :
  forall (post_id : Z) (req : Request CreatePostForm.t)
         (view : Request CommentForm.t) (c c' : Ctx) (r : Response),
    validate_on_submit req = true ->
    validate_on_submit view = false ->
    edit_post post_id req c = (Returns r, c') ->
    exists p,
      In p (blog_posts (db c)) /\
      BlogPost.id p = post_id /\
      r = redirect (ep_show_post post_id) /\
      show_post post_id view c'
      = (Returns
           (render_template "post.html"
              [{| BlogPost.id := post_id;
                  BlogPost.author_id := 1;
                  BlogPost.title := CreatePostForm.title (form req);
                  BlogPost.subtitle := CreatePostForm.subtitle (form req);
                  BlogPost.date := BlogPost.date p;
                  BlogPost.body := CreatePostForm.body (form req);
                  BlogPost.img_url := CreatePostForm.img_url (form req) |}]),
         c').
Proof.
  intros post_id req view c c' r Hv Hview Hrun.
  unfold edit_post in Hrun. apply admin_only_returns in Hrun.
  destruct Hrun as [Hadmin Hrun]. unfold bind in Hrun at 1.
  unfold get_or_404 in Hrun.
  destruct (find _ _) as [p|] eqn:Hfind; [|discriminate].
  rewrite Hv in Hrun. unfold bind in Hrun. rewrite Hadmin in Hrun.
  unfold update_BlogPost in Hrun.
  destruct (existsb _ _); [discriminate|]. injection Hrun as <- <-.
  pose proof (find_pk_Some _ _ _ _ Hfind) as [Hin Hid]. subst post_id.
  exists p. repeat split; auto.
  unfold show_post, bind, get_or_404. cbn [db with_db blog_posts].
  match goal with
  | |- context [map (assign ?e) _] =>
      pose proof (find_assigned e _ p Hfind) as Hf
  end.
  cbn [BlogPost.id] in Hf. rewrite Hf, Hview. reflexivity.
Qed.

Lemma edited_post_is_shown_witness :
  exists p,
    In p (blog_posts two_posts) /\
    BlogPost.id p = 2 /\
    redirect (ep_show_post 2) = redirect (ep_show_post 2) /\
    show_post 2 view_page
      (snd (edit_post 2 cactus_edit (as_angela two_posts)))
    = (Returns
         (render_template "post.html"
            [{| BlogPost.id := 2;
                BlogPost.author_id := 1;
                BlogPost.title := "Cacti";
                BlogPost.subtitle := "Many";
                BlogPost.date := BlogPost.date p;
                BlogPost.body := "<p>Ouch</p>";
                BlogPost.img_url := "https://example.com/d.png" |}]),
       snd (edit_post 2 cactus_edit (as_angela two_posts))).
Proof.
  apply (edited_post_is_shown 2 cactus_edit view_page (as_angela two_posts)).
  - reflexivity.
  - reflexivity.
  - reflexivity.
Defined.

(** X17. When [delete_post] returns, no stored post has that identifier
    any more, every post with another identifier is still stored, and the
    page of the deleted post answers 404. *)
Theorem deleted_post_is_gone :
  forall (post_id : Z) (view : Request CommentForm.t) (c c' : Ctx)
         (r : Response),
    delete_post post_id c = (Returns r, c') ->
    (forall p, In p (blog_posts (db c')) -> BlogPost.id p <> post_id) /\
    (forall p, In p (blog_posts (db c)) -> BlogPost.id p <> post_id ->
               In p (blog_posts (db c'))) /\
    show_post post_id view c' = (Raises (HTTPException 404), c').
Proof.
  intros post_id view c c' r Hrun.
  unfold delete_post, bind, get_or_404 in Hrun.
  destruct (find _ _) as [p|] eqn:Hfind; [|discriminate].
  apply find_pk_Some in Hfind. destruct Hfind as [_ Hid].
  unfold delete_BlogPost in Hrun. rewrite Hid in Hrun.
  destruct (existsb _ _); [discriminate|]. injection Hrun as _ <-.
  cbn [db with_db blog_posts]. repeat split.
  - intros q Hin. apply filter_In in Hin. destruct Hin as [_ Hne].
    now apply negb_true_iff, Z.eqb_neq in Hne.
  - intros q Hin Hne. apply filter_In. split; [exact Hin|].
    now apply negb_true_iff, Z.eqb_neq.
  - unfold show_post, bind, get_or_404. cbn [db with_db blog_posts].
    now rewrite find_deleted.
Qed.

Lemma deleted_post_is_gone_witness :
  show_post 2 view_page (snd (delete_post 2 (as_bob two_posts)))
  = (Raises (HTTPException 404), snd (delete_post 2 (as_bob two_posts))).
Proof.
  eapply (deleted_post_is_gone 2 view_page (as_bob two_posts)).
  reflexivity.
Defined.

(** ** Which route writes which table *)

Ltac same_table :=
  intros c H;
  unfold add_UserAccts, add_BlogPost, add_Comment, update_BlogPost,
    delete_BlogPost;
  try destruct (existsb _ _); exact H.

Section Tables.

Variable U : list UserAccts.t.
Variable C : list Comment.t.

Lemma users_add_BlogPost (title subtitle body img_url : string)
    (author : Z) (date : string) :
  preserves (users_are U) (add_BlogPost title subtitle body img_url author date).
Proof. same_table. Qed.

Lemma users_add_Comment (text : string) (comment_author parent_post : Z) :
  preserves (users_are U) (add_Comment text comment_author parent_post).
Proof. same_table. Qed.

Lemma users_update_BlogPost (p : BlogPost.t) :
  preserves (users_are U) (update_BlogPost p).
Proof. same_table. Qed.

Lemma users_delete_BlogPost (p : BlogPost.t) :
  preserves (users_are U) (delete_BlogPost p).
Proof. same_table. Qed.

Lemma comments_add_UserAccts (name email password : string) :
  preserves (comments_are C) (add_UserAccts name email password).
Proof. same_table. Qed.

Lemma comments_add_BlogPost (title subtitle body img_url : string)
    (author : Z) (date : string) :
  preserves (comments_are C)
    (add_BlogPost title subtitle body img_url author date).
Proof. same_table. Qed.

Lemma comments_update_BlogPost (p : BlogPost.t) :
  preserves (comments_are C) (update_BlogPost p).
Proof. same_table. Qed.

Lemma comments_delete_BlogPost (p : BlogPost.t) :
  preserves (comments_are C) (delete_BlogPost p).
Proof. same_table. Qed.

End Tables.

#[local] Hint Resolve users_add_BlogPost users_add_Comment
  users_update_BlogPost users_delete_BlogPost comments_add_UserAccts
  comments_add_BlogPost comments_update_BlogPost
  comments_delete_BlogPost : blog.

Ltac unchanged_by_view :=
  unfold register, login, logout, get_all_posts, show_post, add_new_post,
    edit_post, delete_post, about, contact, admin_only, abort;
  cbv zeta; preserve.

Section Routes.

Context {werkzeug : Werkzeug}.

(** X18. Users are created by registration only: when a request leaves
    [user_accts] different from what it was, it is a registration whose
    form passed validation and whose email no stored user had. *)
Theorem users_change_only_by_register :
  forall (q : HttpRequest) (c : Ctx),
    user_accts (db (snd (app q c))) <> user_accts (db c) ->
    exists env r_form,
      q = Register env r_form /\
      validate_on_submit r_form = true /\
      (forall u, In u (user_accts (db c)) ->
                 UserAccts.email u <> RegisterForm.email (form r_form)).
Proof.
  intros q c Hchange.
  assert (Hkeep : forall (m : M Response),
             preserves (users_are (user_accts (db c))) m ->
             user_accts (db (snd (m c))) = user_accts (db c)).
  { intros m Hm. apply (Hm c). reflexivity. }
  destruct q as [env r|r| | |pid r|env r|pid r|pid| | ]; cbn [app] in Hchange;
    try (exfalso; apply Hchange; apply Hkeep; unchanged_by_view; fail).
  exists env, r. split; [reflexivity|].
  unfold register in Hchange.
  destruct (validate_on_submit r); [|now destruct Hchange].
  split; [reflexivity|]. intros u Hin Hemail.
  apply Hchange. cbv zeta. unfold bind, select_UserAccts_where_email.
  destruct (scalar_filter_In
              (fun x => UserAccts.email x =? RegisterForm.email (form r))%string
              (user_accts (db c)) u Hin) as (v & -> & _).
  - now apply String.eqb_eq.
  - reflexivity.
Qed.

(** X19. Comments are created by logged-in users only: when a request
    leaves [comments] different from what it was, it is a comment form that
    passed validation, on a stored post, sent with the session of a stored
    user. *)
Theorem comments_change_only_by_logged_in_comment :
  forall (q : HttpRequest) (c : Ctx),
    comments (db (snd (app q c))) <> comments (db c) ->
    exists post_id com_form u p,
      q = ShowPost post_id com_form /\
      validate_on_submit com_form = true /\
      current_user c = (Returns (Account u), c) /\
      In p (blog_posts (db c)) /\ BlogPost.id p = post_id.
Proof.
  intros q c Hchange.
  assert (Hkeep : forall (m : M Response),
             preserves (comments_are (comments (db c))) m ->
             comments (db (snd (m c))) = comments (db c)).
  { intros m Hm. apply (Hm c). reflexivity. }
  destruct q as [env r|r| | |pid r|env r|pid r|pid| | ]; cbn [app] in Hchange;
    try (exfalso; apply Hchange; apply Hkeep; unchanged_by_view; fail).
  unfold show_post, bind, get_or_404 in Hchange.
  destruct (find _ _) as [p|] eqn:Hfind; [|now destruct Hchange].
  apply find_pk_Some in Hfind. destruct Hfind as [Hin Hid].
  destruct (validate_on_submit r) eqn:Hv; [|now destruct Hchange].
  pose proof (inert_current_user c) as Hcu.
  destruct (current_user c) as [[[|u]|e] c1] eqn:Eu; simpl in Hcu; subst c1;
    try (exfalso; apply Hchange; reflexivity).
  exists pid, r, u, p. repeat split; auto.
Qed.

End Routes.

Lemma users_change_only_by_register_witness :
  exists env r_form,
    Register env0 angela_signup = Register env r_form /\
    validate_on_submit r_form = true /\
    (forall u, In u (user_accts (db (as_visitor create_all))) ->
               UserAccts.email u <> RegisterForm.email (form r_form)).
Proof.
  apply (users_change_only_by_register (werkzeug := cleartext)
           (Register env0 angela_signup) (as_visitor create_all)).
  simpl. discriminate.
Defined.

Lemma comments_change_only_by_logged_in_comment_witness :
  exists post_id com_form u p,
    ShowPost 1 nice_comment = ShowPost post_id com_form /\
    validate_on_submit com_form = true /\
    current_user (as_bob one_post) = (Returns (Account u), as_bob one_post) /\
    In p (blog_posts (db (as_bob one_post))) /\ BlogPost.id p = post_id.
Proof.
  apply (comments_change_only_by_logged_in_comment (werkzeug := cleartext)
           (ShowPost 1 nice_comment) (as_bob one_post)).
  simpl. discriminate.
Defined.
